(** * Lunatic Python: the Lua-in-Python bridge (luainpython.c)

    A shallow embedding of the Python-side half of the bridge: the value
    converter [LuaConvert], the protected boundary [TRY]/[CATCH], the call
    bridge [LuaCall], the [lua.custom] proxy object and [LuaState_run].

    The sources hold two revisions of the file: the newer one passes a
    [LuaStateObject] around, the older one keeps a single global
    [lua_State].  The functions embedded here have the same code in both.

    The Lua C API is not part of the repository.  It is modelled here by an
    executable interpreter-free runtime: a value stack, a registry, a heap of
    raw tables, and an oracle [LuaCode] that stands for everything Lua code
    itself does (function bodies, the chunk compiler, metatables). *)

From Stdlib Require Import ZArith String List Floats Lia Bool.
From stdpp Require Import base option list gmap strings.

#[local] Set Warnings "-register-all".
Local Open Scope string_scope.
Local Open Scope Z_scope.

(** ** C numbers *)

Module CNum.

Definition LONG_MIN : Z := - 2 ^ 63.
Definition LONG_MAX : Z := 2 ^ 63 - 1.
Definition INT_MIN : Z := - 2 ^ 31.
Definition INT_MAX : Z := 2 ^ 31 - 1.

(** [(int)x] for a 64-bit [x]: the low 32 bits, read as two's complement. *)
Definition cast_int (x : Z) : Z := (x + 2 ^ 31) mod 2 ^ 32 - 2 ^ 31.

(** [(double)z]: the binary64 value nearest to [z]. *)
Definition long_to_double (z : Z) : float :=
  SF2Prim (binary_normalize prec emax z 0 false).

(** [(long)d]: truncation towards zero.  A value that does not fit a
    64-bit long (or an infinity, or a NaN) is undefined in C; the result
    taken here is the one of x86-64's conversion instruction, [LONG_MIN]. *)
Definition double_to_long (d : float) : Z :=
  match Prim2SF d with
  | S754_zero _ => 0
  | S754_finite s m e =>
      let a := Z.shiftl (Z.pos m) e in
      let z := if s then - a else a in
      if (LONG_MIN <=? z) && (z <=? LONG_MAX) then z else LONG_MIN
  | _ => LONG_MIN
  end.

(** C's [a != b] on doubles. *)
Definition double_neq (a b : float) : bool := negb (PrimFloat.eqb a b).

End CNum.
Export CNum.

(** ** Host (Python) values *)

(** A C string handed to a printf-like function: [lua_tostring] may return
    NULL, a string, or the text of a number (rendered by Lua with "%.14g",
    kept symbolic). *)
Inductive cstring :=
| CNULL
| CStr (s : string)
| CNumber (n : float).

Inductive fmt_arg :=
| ArgInt (i : Z)
| ArgStr (s : cstring)
| ArgPtr (p : Z).

(** luainpython.h: [LuaObject].  The [state] pointer of the newer revision
    is not represented: one runtime instance is modelled, and every proxy
    belongs to it. *)
Record LuaObject := mkLuaObject { ref : Z; refiter : Z }.

Inductive PyObject :=
| Py_None
| Py_True
| Py_False
| PyInt (v : Z)
| PyFloat (d : float)
| PyString (s : string)
| PyStringF (fmt : string) (args : list fmt_arg)   (* PyString_FromFormat *)
| PyTuple (items : list (option PyObject))          (* a slot may be NULL *)
| PyLuaObject (o : LuaObject)                       (* lua.custom *)
| PyOther (id : Z).                                 (* any other object *)

Inductive PyExc :=
| PyExc_RuntimeError
| PyExc_TypeError
| PyExc_ValueError
| PyExc_Exception
| PyExc_MemoryError.

(** The error indicator: [PyErr_SetString]/[PyErr_Format] keep the format
    and its arguments, [PyErr_SetObject] keeps the object (possibly NULL). *)
Inductive py_error :=
| PyErr_Msg (e : PyExc) (fmt : string) (args : list fmt_arg)
| PyErr_Obj (e : PyExc) (o : option PyObject).

(** ** Guest (Lua) values *)

Inductive lua_Type :=
| LUA_TNONE | LUA_TNIL | LUA_TBOOLEAN | LUA_TLIGHTUSERDATA | LUA_TNUMBER
| LUA_TSTRING | LUA_TTABLE | LUA_TFUNCTION | LUA_TUSERDATA | LUA_TTHREAD.

Inductive TValue :=
| LNil
| LBoolean (b : bool)
| LLightUserdata (p : Z)
| LNumber (n : float)
| LString (s : string)
| LTable (a : Z)
| LFunction (f : Z)
| LUserdata (u : Z) (po : option PyObject)  (* [Some o]: a py_object wrapper *)
| LThread (t : Z).

Definition ttype (v : TValue) : lua_Type :=
  match v with
  | LNil => LUA_TNIL
  | LBoolean _ => LUA_TBOOLEAN
  | LLightUserdata _ => LUA_TLIGHTUSERDATA
  | LNumber _ => LUA_TNUMBER
  | LString _ => LUA_TSTRING
  | LTable _ => LUA_TTABLE
  | LFunction _ => LUA_TFUNCTION
  | LUserdata _ _ => LUA_TUSERDATA
  | LThread _ => LUA_TTHREAD
  end.

Definition lua_typename (t : lua_Type) : string :=
  match t with
  | LUA_TNONE => "no value"
  | LUA_TNIL => "nil"
  | LUA_TBOOLEAN => "boolean"
  | LUA_TLIGHTUSERDATA => "userdata"
  | LUA_TNUMBER => "number"
  | LUA_TSTRING => "string"
  | LUA_TTABLE => "table"
  | LUA_TFUNCTION => "function"
  | LUA_TUSERDATA => "userdata"
  | LUA_TTHREAD => "thread"
  end.

Definition lua_Type_eqb (a b : lua_Type) : bool :=
  match a, b with
  | LUA_TNONE, LUA_TNONE | LUA_TNIL, LUA_TNIL | LUA_TBOOLEAN, LUA_TBOOLEAN
  | LUA_TLIGHTUSERDATA, LUA_TLIGHTUSERDATA | LUA_TNUMBER, LUA_TNUMBER
  | LUA_TSTRING, LUA_TSTRING | LUA_TTABLE, LUA_TTABLE
  | LUA_TFUNCTION, LUA_TFUNCTION | LUA_TUSERDATA, LUA_TUSERDATA
  | LUA_TTHREAD, LUA_TTHREAD => true
  | _, _ => false
  end.

(** Raw equality ([lua_rawequal]): numbers by value, objects by identity. *)
Definition rawequal (a b : TValue) : bool :=
  match a, b with
  | LNil, LNil => true
  | LBoolean x, LBoolean y => Bool.eqb x y
  | LLightUserdata x, LLightUserdata y => x =? y
  | LNumber x, LNumber y => PrimFloat.eqb x y
  | LString x, LString y => String.eqb x y
  | LTable x, LTable y => x =? y
  | LFunction x, LFunction y => x =? y
  | LUserdata x _, LUserdata y _ => x =? y
  | LThread x, LThread y => x =? y
  | _, _ => false
  end.

Definition is_nil (v : TValue) : bool :=
  match v with LNil => true | _ => false end.

(** The two panic functions of luainpython.c, as function pointers. *)
Inductive lua_CFunction :=
| fn_py_lua_panic
| fn_py_lua_module_panic.

(** A table: its entries in traversal order.  An entry whose value is nil is
    a dead key: absent for lookups, still a valid position for [lua_next]. *)
Abbreviation table_entries := (list (TValue * TValue)).

Record lua_heap := mkHeap {
  registry : gmap Z TValue;          (* integer keys of the registry table *)
  tables : gmap Z table_entries;
}.

Record lua_State := mkState {
  stack : list TValue;               (* index 1 first, top last *)
  heap : lua_heap;
  panic : option lua_CFunction;      (* G(L)->panic *)
}.

Definition set_stack (s : list TValue) (L : lua_State) : lua_State :=
  mkState s (heap L) (panic L).
Definition set_heap (h : lua_heap) (L : lua_State) : lua_State :=
  mkState (stack L) h (panic L).
Definition set_registry (r : gmap Z TValue) (L : lua_State) : lua_State :=
  set_heap (mkHeap r (tables (heap L))) L.
Definition set_tables (t : gmap Z table_entries) (L : lua_State) : lua_State :=
  set_heap (mkHeap (registry (heap L)) t) L.

(** What running Lua code does; the runtime's own behaviour is below. *)
Record LuaCode := mkLuaCode {
  (** the body of function [f] applied to arguments: the new heap, and an
      error object or the results *)
  lc_run : Z -> list TValue -> lua_heap -> lua_heap * (TValue + list TValue);
  (** the chunk compiler: an error message or a function *)
  lc_compile : string -> TValue + Z;
  (** the handler a value's metatable has for an event, if any *)
  lc_metamethod : lua_heap -> TValue -> string -> option TValue;
}.

(** The result of an API function that may raise a Lua error. *)
Inductive lua_res (A : Type) :=
| LOk (a : A) (L : lua_State)
| LThrow (e : TValue) (L : lua_State)
| LUndefined (why : string).
Arguments LOk {A} a L.
Arguments LThrow {A} e L.
Arguments LUndefined {A} why.

(** ** The Lua C API (lua.h, lauxlib.h) *)

Module LuaAPI.

Definition LUA_REGISTRYINDEX : Z := -10000.
Definition LUA_MULTRET : Z := -1.
Definition LUA_NOREF : Z := -2.
Definition LUA_REFNIL : Z := -1.
Definition LUA_ERRRUN : Z := 2.
Definition LUA_ERRSYNTAX : Z := 3.
(** luaconf.h defines LUA_NUMBER_DOUBLE: [lua_Number] is [double]. *)
Definition LUA_NUMBER_DOUBLE : bool := true.
Definition MAXTAGLOOP : nat := 100.

Definition lua_gettop (L : lua_State) : Z := Z.of_nat (length (stack L)).

(** The stack slot an index names: positive from the bottom, negative from
    the top; [None] for an index outside the stack. *)
Definition index2adr (L : lua_State) (idx : Z) : option TValue :=
  if 0 <? idx then stack L !! Z.to_nat (idx - 1)
  else if (idx <? 0) && (0 <=? lua_gettop L + idx)
       then stack L !! Z.to_nat (lua_gettop L + idx)
       else None.

Definition lua_type (L : lua_State) (idx : Z) : lua_Type :=
  match index2adr L idx with
  | Some v => ttype v
  | None => LUA_TNONE
  end.

Definition lua_isnil (L : lua_State) (idx : Z) : bool :=
  lua_Type_eqb (lua_type L idx) LUA_TNIL.
Definition lua_istable (L : lua_State) (idx : Z) : bool :=
  lua_Type_eqb (lua_type L idx) LUA_TTABLE.

Definition push (v : TValue) (L : lua_State) : lua_State :=
  set_stack (stack L ++ [v]) L.

Definition lua_settop (L : lua_State) (idx : Z) : lua_State :=
  let n := Z.to_nat (if 0 <=? idx then idx else lua_gettop L + idx + 1) in
  set_stack (take n (stack L ++ replicate (n - length (stack L)) LNil)) L.

Definition lua_pop (L : lua_State) (n : Z) : lua_State :=
  lua_settop L (- n - 1).

Definition lua_pushnil (L : lua_State) : lua_State := push LNil L.
Definition lua_pushnumber (L : lua_State) (n : float) : lua_State :=
  push (LNumber n) L.
Definition lua_pushboolean (L : lua_State) (b : bool) : lua_State :=
  push (LBoolean b) L.
Definition lua_pushlstring (L : lua_State) (s : string) : lua_State :=
  push (LString s) L.
Definition lua_pushvalue (L : lua_State) (idx : Z) : lua_State :=
  push (default LNil (index2adr L idx)) L.

(** Called by the source on number slots only; the coercion of numeric
    strings is not represented. *)
Definition lua_tonumber (L : lua_State) (idx : Z) : float :=
  match index2adr L idx with
  | Some (LNumber n) => n
  | _ => 0%float
  end.

Definition lua_toboolean (L : lua_State) (idx : Z) : bool :=
  match index2adr L idx with
  | Some LNil | None => false
  | Some (LBoolean b) => b
  | Some _ => true
  end.

(** The text of a value: NULL unless it is a string or a number. *)
Definition cstring_of (v : TValue) : cstring :=
  match v with
  | LString s => CStr s
  | LNumber n => CNumber n
  | _ => CNULL
  end.

(** [lua_tolstring]/[lua_tostring] (a number slot is not rewritten to its
    string here). *)
Definition lua_tolstring (L : lua_State) (idx : Z) : cstring :=
  match index2adr L idx with
  | Some v => cstring_of v
  | None => CNULL
  end.

Definition lua_topointer (L : lua_State) (idx : Z) : Z :=
  match index2adr L idx with
  | Some (LTable a) | Some (LFunction a) | Some (LThread a)
  | Some (LUserdata a _) | Some (LLightUserdata a) => a
  | _ => 0
  end.

Definition lua_atpanic (L : lua_State) (panicf : option lua_CFunction)
  : option lua_CFunction * lua_State :=
  (panic L, mkState (stack L) (heap L) panicf).

(** *** Raw tables *)

Fixpoint rawget (t : table_entries) (k : TValue) : TValue :=
  match t with
  | [] => LNil
  | (k', v) :: t' => if rawequal k' k then v else rawget t' k
  end.

Fixpoint has_key (t : table_entries) (k : TValue) : bool :=
  match t with
  | [] => false
  | (k', _) :: t' => rawequal k' k || has_key t' k
  end.

Fixpoint rawset_existing (t : table_entries) (k v : TValue) : table_entries :=
  match t with
  | [] => []
  | (k', v') :: t' =>
      if rawequal k' k then (k', v) :: t' else (k', v') :: rawset_existing t' k v
  end.

Definition rawset (t : table_entries) (k v : TValue) : table_entries :=
  if has_key t k then rawset_existing t k v
  else if is_nil v then t
  else t ++ [(k, v)].

Definition table_at (L : lua_State) (a : Z) : table_entries :=
  default [] (tables (heap L) !! a).

(** The first live entry of a list of entries. *)
Fixpoint first_live (t : table_entries) : option (TValue * TValue) :=
  match t with
  | [] => None
  | (k, v) :: t' => if is_nil v then first_live t' else Some (k, v)
  end.

(** The entries that follow key [k]; [None] when [k] is not a key. *)
Fixpoint after_key (t : table_entries) (k : TValue) : option table_entries :=
  match t with
  | [] => None
  | (k', _) :: t' => if rawequal k' k then Some t' else after_key t' k
  end.

(** [luaH_next]: [None] for an invalid key, [Some None] at the end. *)
Definition table_next (t : table_entries) (k : TValue)
  : option (option (TValue * TValue)) :=
  if is_nil k then Some (first_live t)
  else option_map first_live (after_key t k).

(** A border of the array part: the least [n] with [t[n+1]] nil. *)
Fixpoint border (fuel : nat) (t : table_entries) (n : Z) : Z :=
  match fuel with
  | O => n
  | S fuel' =>
      if is_nil (rawget t (LNumber (long_to_double (n + 1)))) then n
      else border fuel' t (n + 1)
  end.

Definition lua_objlen (L : lua_State) (idx : Z) : Z :=
  match index2adr L idx with
  | Some (LString s) => Z.of_nat (String.length s)
  | Some (LTable a) => border (length (table_at L a)) (table_at L a) 0
  | _ => 0   (* the size of a userdata block and the length of a number's
               text are not represented *)
  end.

(** *** The registry and references *)

Definition lua_rawgeti (L : lua_State) (idx n : Z) : lua_State :=
  if idx =? LUA_REGISTRYINDEX
  then push (default LNil (registry (heap L) !! n)) L
  else match index2adr L idx with
       | Some (LTable a) =>
           push (rawget (table_at L a) (LNumber (long_to_double n))) L
       | _ => push LNil L
       end.

Definition top_value (L : lua_State) : TValue :=
  default LNil (index2adr L (-1)).

Definition registry_set (n : Z) (v : TValue) (L : lua_State) : lua_State :=
  set_registry (if is_nil v then delete n (registry (heap L))
                else <[n := v]> (registry (heap L))) L.

Definition lua_rawseti (L : lua_State) (idx n : Z) : lua_State :=
  let v := top_value L in
  if idx =? LUA_REGISTRYINDEX
  then lua_pop (registry_set n v L) 1
  else match index2adr L idx with
       | Some (LTable a) =>
           lua_pop (set_tables (<[a := rawset (table_at L a)
                                        (LNumber (long_to_double n)) v]>
                                  (tables (heap L))) L) 1
       | _ => lua_pop L 1
       end.

(** A reference that is not in use: one past the largest key in use
    (lauxlib's free list, which reuses released references, is not
    represented). *)
Definition fresh_ref (r : gmap Z TValue) : Z :=
  1 + map_fold (fun k _ m => Z.max k m) 0 r.

(** [luaL_ref(L, LUA_REGISTRYINDEX)] *)
Definition luaL_ref (L : lua_State) : Z * lua_State :=
  let v := top_value L in
  if is_nil v then (LUA_REFNIL, lua_pop L 1)
  else let r := fresh_ref (registry (heap L)) in
       (r, lua_pop (registry_set r v L) 1).

(** [luaL_unref(L, LUA_REGISTRYINDEX, ref)] *)
Definition luaL_unref (L : lua_State) (r : Z) : lua_State :=
  if 0 <=? r then set_registry (delete r (registry (heap L))) L else L.

End LuaAPI.
Export LuaAPI.

(** ** The part of the Lua runtime that runs Lua code *)

Section LuaRuntime.

Variable code : LuaCode.

Definition typeerror (v : TValue) (op : string) : TValue :=
  LString ("attempt to " ++ op ++ " a " ++ lua_typename (ttype v) ++ " value").

(** [luaD_call]: a function runs its body; any other value is called
    through its [__call] handler, which must be a function. *)
Definition call_value (f : TValue) (args : list TValue) (h : lua_heap)
  : lua_heap * (TValue + list TValue) :=
  match f with
  | LFunction id => lc_run code id args h
  | _ =>
      match lc_metamethod code h f "__call" with
      | Some (LFunction id) => lc_run code id (f :: args) h
      | _ => (h, inl (typeerror f "call"))
      end
  end.

(** A call made outside [lua_pcall]: an error propagates. *)
Definition call_unprotected (f : TValue) (args : list TValue) (L : lua_State)
  : lua_res (list TValue) :=
  match call_value f args (heap L) with
  | (h, inr rs) => LOk rs (set_heap h L)
  | (h, inl e) => LThrow e (set_heap h L)
  end.

Definition is_function (v : TValue) : bool :=
  match v with LFunction _ => true | _ => false end.

Definition first_result (rs : list TValue) : TValue := default LNil (head rs).

(** lvm.c: [luaV_gettable] *)
Fixpoint luaV_gettable (loop : nat) (t key : TValue) (L : lua_State)
  : lua_res TValue :=
  match loop with
  | O => LThrow (LString "loop in gettable") L
  | S loop' =>
      let via tm :=
        if is_function tm
        then match call_unprotected tm [t; key] L with
             | LOk rs L' => LOk (first_result rs) L'
             | LThrow e L' => LThrow e L'
             | LUndefined why => LUndefined why
             end
        else luaV_gettable loop' tm key L in
      match t with
      | LTable a =>
          let res := rawget (table_at L a) key in
          if negb (is_nil res) then LOk res L
          else match lc_metamethod code (heap L) t "__index" with
               | None => LOk res L
               | Some tm => via tm
               end
      | _ =>
          match lc_metamethod code (heap L) t "__index" with
          | None => LThrow (typeerror t "index") L
          | Some tm => via tm
          end
      end
  end.

Definition bad_key (k : TValue) : option TValue :=
  match k with
  | LNil => Some (LString "table index is nil")
  | LNumber n => if PrimFloat.is_nan n then Some (LString "table index is NaN")
                 else None
  | _ => None
  end.

(** lvm.c: [luaV_settable] *)
Fixpoint luaV_settable (loop : nat) (t key val : TValue) (L : lua_State)
  : lua_res unit :=
  match loop with
  | O => LThrow (LString "loop in settable") L
  | S loop' =>
      let via tm :=
        if is_function tm
        then match call_unprotected tm [t; key; val] L with
             | LOk _ L' => LOk tt L'
             | LThrow e L' => LThrow e L'
             | LUndefined why => LUndefined why
             end
        else luaV_settable loop' tm key val L in
      match t with
      | LTable a =>
          match bad_key key with
          | Some e => LThrow e L
          | None =>
              let h := table_at L a in
              if negb (is_nil (rawget h key)) then
                LOk tt (set_tables (<[a := rawset h key val]> (tables (heap L))) L)
              else match lc_metamethod code (heap L) t "__newindex" with
                   | None =>
                       LOk tt (set_tables (<[a := rawset h key val]>
                                             (tables (heap L))) L)
                   | Some tm => via tm
                   end
          end
      | _ =>
          match lc_metamethod code (heap L) t "__newindex" with
          | None => LThrow (typeerror t "index") L
          | Some tm => via tm
          end
      end
  end.

Definition slot (L : lua_State) (idx : Z) : TValue :=
  default LNil (index2adr L idx).

(** [lua_gettable]: the key on top is replaced by [t[key]]. *)
Definition lua_gettable (L : lua_State) (idx : Z) : lua_res unit :=
  match luaV_gettable MAXTAGLOOP (slot L idx) (slot L (-1)) L with
  | LOk v L' => LOk tt (push v (lua_pop L' 1))
  | LThrow e L' => LThrow e L'
  | LUndefined why => LUndefined why
  end.

(** [lua_settable]: [t[key] = value], value on top, key below; pops both. *)
Definition lua_settable (L : lua_State) (idx : Z) : lua_res unit :=
  match luaV_settable MAXTAGLOOP (slot L idx) (slot L (-2)) (slot L (-1)) L with
  | LOk _ L' => LOk tt (lua_pop L' 2)
  | LThrow e L' => LThrow e L'
  | LUndefined why => LUndefined why
  end.

(** [lua_next]: pops a key; pushes the next key and value and returns 1,
    or pushes nothing and returns 0.  The value at [idx] must be a table
    (the API does not check it). *)
Definition lua_next (L : lua_State) (idx : Z) : lua_res Z :=
  match slot L idx with
  | LTable a =>
      match table_next (table_at L a) (slot L (-1)) with
      | None => LThrow (LString "invalid key to 'next'") L
      | Some None => LOk 0 (lua_pop L 1)
      | Some (Some (k, v)) => LOk 1 (push v (push k (lua_pop L 1)))
      end
  | _ => LUndefined "lua_next on a value that is not a table"
  end.

(** [luaL_callmeta] *)
Definition luaL_callmeta (L : lua_State) (obj : Z) (event : string)
  : lua_res Z :=
  match lc_metamethod code (heap L) (slot L obj) event with
  | None => LOk 0 L
  | Some h =>
      match call_unprotected h [slot L obj] L with
      | LOk rs L' => LOk 1 (push (first_result rs) L')
      | LThrow e L' => LThrow e L'
      | LUndefined why => LUndefined why
      end
  end.

Definition adjust_results (nresults : Z) (rs : list TValue) : list TValue :=
  if nresults =? LUA_MULTRET then rs
  else take (Z.to_nat nresults) (rs ++ replicate (Z.to_nat nresults) LNil).

(** [lua_pcall(L, nargs, nresults, 0)]: the function and its [nargs]
    arguments, which the caller has pushed, are replaced by the results, or
    by the error object. *)
Definition lua_pcall (L : lua_State) (nargs nresults : Z) : Z * lua_State :=
  let na := Z.to_nat nargs in
  let len := length (stack L) in
  let below := take (len - na - 1)%nat (stack L) in
  let f := default LNil (stack L !! (len - na - 1)%nat) in
  let args := drop (len - na)%nat (stack L) in
  match call_value f args (heap L) with
  | (h, inr rs) =>
      (0, set_stack (below ++ adjust_results nresults rs) (set_heap h L))
  | (h, inl e) =>
      (LUA_ERRRUN, set_stack (below ++ [e]) (set_heap h L))
  end.

(** [luaL_loadbuffer]: pushes the compiled chunk, or the error message. *)
Definition luaL_loadbuffer (L : lua_State) (s : string) : Z * lua_State :=
  match lc_compile code s with
  | inr f => (0, push (LFunction f) L)
  | inl e => (LUA_ERRSYNTAX, push e L)
  end.

End LuaRuntime.

(** ** The host side: error indicator, allocation, control *)

Record World := mkWorld {
  lua : lua_State;               (* the runtime instance's [lua_State] *)
  pyerr : option py_error;       (* the error indicator *)
  py_free : nat;                 (* object allocations that will succeed *)
}.

Definition set_lua (L : lua_State) (w : World) : World :=
  mkWorld L (pyerr w) (py_free w).
Definition set_err (e : py_error) (w : World) : World :=
  mkWorld (lua w) (Some e) (py_free w).

(** How a piece of C code of the bridge ends: it returns, it leaves by
    [longjmp(errjmp, -1)], the process exits (a panic function returned to
    Lua), or behaviour is undefined. *)
Inductive outcome (A : Type) :=
| Ret (a : A) (w : World)
| Longjmp (w : World)
| Exit (w : World)
| Undefined (why : string).
Arguments Ret {A} a w.
Arguments Longjmp {A} w.
Arguments Exit {A} w.
Arguments Undefined {A} why.

Definition M (A : Type) : Type := World -> outcome A.

Definition ret {A} (a : A) : M A := fun w => Ret a w.

Definition bind {A B} (m : M A) (k : A -> M B) : M B := fun w =>
  match m w with
  | Ret a w' => k a w'
  | Longjmp w' => Longjmp w'
  | Exit w' => Exit w'
  | Undefined why => Undefined why
  end.

Declare Scope bridge_scope.
Delimit Scope bridge_scope with bridge.
Notation "x <- m ;; k" := (bind m (fun x => k))
  (at level 100, m at next level, right associativity) : bridge_scope.
Notation "m ;; k" := (bind m (fun _ => k))
  (at level 100, right associativity) : bridge_scope.
Local Open Scope bridge_scope.

(** Reading, changing, and calling into the Lua state. *)
Definition getL {A} (f : lua_State -> A) : M A := fun w => Ret (f (lua w)) w.
Definition modL (f : lua_State -> lua_State) : M unit :=
  fun w => Ret tt (set_lua (f (lua w)) w).
Definition opL {A} (f : lua_State -> A * lua_State) : M A :=
  fun w => let '(a, L) := f (lua w) in Ret a (set_lua L w).

Module PyAPI.

Definition PyErr_SetString (e : PyExc) (msg : string) : M unit :=
  fun w => Ret tt (set_err (PyErr_Msg e msg []) w).
Definition PyErr_Format (e : PyExc) (fmt : string) (args : list fmt_arg)
  : M unit :=
  fun w => Ret tt (set_err (PyErr_Msg e fmt args) w).
Definition PyErr_SetObject (e : PyExc) (o : option PyObject) : M unit :=
  fun w => Ret tt (set_err (PyErr_Obj e o) w).

(** Creating an object: NULL with MemoryError set when memory is out. *)
Definition py_new (o : PyObject) : M (option PyObject) := fun w =>
  match py_free w with
  | O => Ret None (set_err (PyErr_Msg PyExc_MemoryError "" []) w)
  | S n => Ret (Some o) (mkWorld (lua w) (pyerr w) n)
  end.

(** A Python string with the text of a C string; the text of a number
    stays symbolic, and NULL is passed with length 0 only. *)
Definition py_string_of (s : cstring) : PyObject :=
  match s with
  | CStr s => PyString s
  | CNULL => PyString ""
  | CNumber n => PyStringF "%s" [ArgStr (CNumber n)]
  end.

Definition PyString_FromStringAndSize (s : cstring) : M (option PyObject) :=
  py_new (py_string_of s).
Definition PyString_FromString (s : cstring) : M (option PyObject) :=
  py_new (py_string_of s).
Definition PyString_FromFormat (fmt : string) (args : list fmt_arg)
  : M (option PyObject) :=
  py_new (PyStringF fmt args).
Definition PyFloat_FromDouble (d : float) : M (option PyObject) :=
  py_new (PyFloat d).
(** Small integers are preallocated. *)
Definition PyInt_FromLong (v : Z) : M (option PyObject) :=
  if (-5 <=? v) && (v <? 257) then ret (Some (PyInt v)) else py_new (PyInt v).
Definition PyTuple_New (n : Z) : M (option (list (option PyObject))) :=
  o <- py_new (PyTuple (replicate (Z.to_nat n) None)) ;;
  ret (match o with
       | Some _ => Some (replicate (Z.to_nat n) None)
       | None => None
       end).

Definition PyTuple_Size (items : list (option PyObject)) : Z :=
  Z.of_nat (length items).
Definition PyTuple_GetItem (items : list (option PyObject)) (i : Z)
  : option PyObject :=
  if 0 <=? i then mjoin (items !! Z.to_nat i) else None.
Definition PyTuple_SetItem (items : list (option PyObject)) (i : Z)
           (o : PyObject) : list (option PyObject) :=
  <[Z.to_nat i := Some o]> items.

(** [Py_DECREF] dereferences its argument: NULL is undefined behaviour.
    Object lifetimes are not represented otherwise. *)
Definition Py_DECREF (o : option PyObject) : M unit := fun w =>
  match o with
  | Some _ => Ret tt w
  | None => Undefined "Py_DECREF(NULL)"
  end.

(** [PyArg_ParseTuple(args, "s#", &s, &len)]: one string argument, or a
    TypeError (its text is not represented). *)
Definition PyArg_ParseTuple_s (args : list (option PyObject))
  : M (option string) :=
  match args with
  | [Some (PyString s)] => ret (Some s)
  | _ => PyErr_SetString PyExc_TypeError "" ;;
         ret None
  end.

End PyAPI.
Export PyAPI.

(** ** luainpython.c *)

Section Bridge.

Variable code : LuaCode.

(** pythoninlua.c is not part of the sources at hand: its converter
    [py_convert(L, o, withnone)] is a parameter here.  It pushes the Lua
    value of [o] and returns non-zero, or pushes nothing and returns 0; it
    may also raise a Lua error. *)
Variable py_convert : lua_State -> PyObject -> bool -> lua_res Z.

Definition longjmp {A} : M A := fun w => Longjmp w.
Definition exit {A} : M A := fun w => Exit w.

Definition py_lua_panic : M Z :=
  s <- getL (fun L => lua_tolstring L (-1)) ;;
  o <- PyString_FromStringAndSize s ;;
  PyErr_SetObject PyExc_RuntimeError o ;;
  longjmp.

(** Writes the message to stderr (not represented) and returns. *)
Definition py_lua_module_panic : M Z := ret (-1).

Definition call_CFunction (f : lua_CFunction) : M Z :=
  match f with
  | fn_py_lua_panic => py_lua_panic
  | fn_py_lua_module_panic => py_lua_module_panic
  end.

(** ldo.c: [luaD_throw] with no protected call around: the stack is reset
    to the error object, the panic function is called, and if it returns
    the process exits. *)
Definition luaD_throw {A} (e : TValue) : M A :=
  modL (set_stack [e]) ;;
  f <- getL panic ;;
  match f with
  | Some f => call_CFunction f ;; exit
  | None => exit
  end.

(** The macros TRY, CATCH and ENDTRY around [body]: [Some a] when the body
    ran to its end with result [a] (the code after ENDTRY follows), [None]
    when control arrived in the CATCH block.  Both ways pass the
    [lua_atpanic(LuaState, old_panic)] of the CATCH macro first. *)
Definition TRY_CATCH {A} (body : lua_State -> lua_res A) : M (option A) :=
  fun w =>
    let '(old_panic, L1) := lua_atpanic (lua w) (Some fn_py_lua_panic) in
    match body L1 with
    | LOk a L2 =>
        Ret (Some a) (set_lua (snd (lua_atpanic L2 old_panic)) w)
    | LThrow e L2 =>
        match luaD_throw (A:=unit) e (set_lua L2 w) with
        | Longjmp w3 =>
            Ret None (set_lua (snd (lua_atpanic (lua w3) old_panic)) w3)
        | Ret _ w3 => Exit w3
        | Exit w3 => Exit w3
        | Undefined why => Undefined why
        end
    | LUndefined why => Undefined why
    end.

Definition LuaObject_New (n : Z) : M (option PyObject) :=
  obj <- py_new (PyLuaObject (mkLuaObject 0 0)) ;;
  match obj with
  | Some _ =>
      modL (fun L => lua_pushvalue L n) ;;
      r <- opL luaL_ref ;;
      ret (Some (PyLuaObject (mkLuaObject r LUA_NOREF)))
  | None => ret None
  end.

(** [check_py_object]: the wrapped Python object of a userdata made by the
    other half of the bridge, NULL for any other value. *)
Definition check_py_object (L : lua_State) (n : Z) : option PyObject :=
  match index2adr L n with
  | Some (LUserdata _ po) => po
  | _ => None
  end.

Definition LuaConvert (n : Z) : M (option PyObject) :=
  t <- getL (fun L => lua_type L n) ;;
  match t with
  | LUA_TNIL => ret (Some Py_None)
  | LUA_TSTRING =>
      s <- getL (fun L => lua_tolstring L n) ;;
      PyString_FromStringAndSize s
  | LUA_TNUMBER =>
      num <- getL (fun L => lua_tonumber L n) ;;
      if LUA_NUMBER_DOUBLE
         && double_neq num (long_to_double (double_to_long num))
      then PyFloat_FromDouble (long_to_double n)
      else PyInt_FromLong (double_to_long num)
  | LUA_TBOOLEAN =>
      b <- getL (fun L => lua_toboolean L n) ;;
      if b then ret (Some Py_True) else ret (Some Py_False)
  | LUA_TUSERDATA =>
      obj <- getL (fun L => check_py_object L n) ;;
      match obj with
      | Some o => ret (Some o)
      | None => LuaObject_New n    (* go on and handle as custom *)
      end
  | _ => LuaObject_New n
  end.

Definition e_py_convert (o : PyObject) (withnone : bool) : M Z :=
  r <- TRY_CATCH (fun L => py_convert L o withnone) ;;
  let r := default 0 r in
  (if r =? 0 then PyErr_SetString PyExc_RuntimeError "can't convert"
   else ret tt) ;;
  ret r.

(** The argument loop of [LuaCall]: [for (i = 0; i != nargs; i++)].
    [true] when the loop ran to its end, [false] when it returned NULL. *)
Fixpoint LuaCall_args (fuel : nat) (args : list (option PyObject))
         (nargs i : Z) : M bool :=
  match fuel with
  | O => ret true
  | S fuel' =>
      if i =? nargs then ret true
      else
        match PyTuple_GetItem args i with
        | None =>
            PyErr_Format PyExc_TypeError "failed to get tuple item #%d"
                         [ArgInt i] ;;
            modL (fun L => lua_settop L 0) ;;
            ret false
        | Some arg =>
            rc <- e_py_convert arg false ;;
            if rc =? 0 then
              PyErr_Format PyExc_TypeError "failed to convert argument #%d"
                           [ArgInt i] ;;
              modL (fun L => lua_settop L 0) ;;
              ret false
            else LuaCall_args fuel' args nargs (i + 1)
        end
  end.

(** The result loop of [LuaCall]; [None] when it returned NULL. *)
Fixpoint LuaCall_results (fuel : nat) (tuple : list (option PyObject))
         (nargs i : Z) : M (option (list (option PyObject))) :=
  match fuel with
  | O => ret (Some tuple)
  | S fuel' =>
      if i =? nargs then ret (Some tuple)
      else
        arg <- LuaConvert (i + 1) ;;
        match arg with
        | None =>
            PyErr_Format PyExc_TypeError "failed to convert return #%d"
                         [ArgInt i] ;;
            modL (fun L => lua_settop L 0) ;;
            Py_DECREF (Some (PyTuple tuple)) ;;
            ret None
        | Some a =>
            LuaCall_results fuel' (PyTuple_SetItem tuple i a) nargs (i + 1)
        end
  end.

Definition LuaCall (args : list (option PyObject)) : M (option PyObject) :=
  let nargs := cast_int (PyTuple_Size args) in
  ok <- LuaCall_args (S (length args)) args nargs 0 ;;
  if negb ok then ret None else
  rc <- opL (fun L => lua_pcall code L nargs LUA_MULTRET) ;;
  if negb (rc =? 0) then
    s <- getL (fun L => lua_tolstring L (-1)) ;;
    PyErr_Format PyExc_Exception "error: %s" [ArgStr s] ;;
    ret None
  else
  nargs <- getL lua_gettop ;;
  if nargs =? 1 then
    r <- LuaConvert 1 ;;
    match r with
    | None =>
        PyErr_SetString PyExc_TypeError "failed to convert return" ;;
        modL (fun L => lua_settop L 0) ;;
        Py_DECREF r ;;
        ret None
    | Some _ =>
        modL (fun L => lua_settop L 0) ;;
        ret r
    end
  else if 1 <? nargs then
    t <- PyTuple_New nargs ;;
    match t with
    | None =>
        PyErr_SetString PyExc_RuntimeError "failed to create return tuple" ;;
        modL (fun L => lua_settop L 0) ;;
        ret None
    | Some tuple =>
        r <- LuaCall_results (Z.to_nat nargs) tuple nargs 0 ;;
        match r with
        | None => ret None
        | Some tuple' =>
            modL (fun L => lua_settop L 0) ;;
            ret (Some (PyTuple tuple'))
        end
    end
  else
    modL (fun L => lua_settop L 0) ;;
    ret (Some Py_None).

(** The shared exit of the proxy operations:
    [error: lua_settop(LuaState, 0); return ret;] *)
Definition leave {A} (r : A) : M A :=
  modL (fun L => lua_settop L 0) ;;
  ret r.

Definition LuaObject_getattr (obj : LuaObject) (attr : PyObject)
  : M (option PyObject) :=
  modL (fun L => lua_rawgeti L LUA_REGISTRYINDEX (ref obj)) ;;
  lost <- getL (fun L => lua_isnil L (-1)) ;;
  if lost then
    PyErr_SetString PyExc_RuntimeError "lost reference" ;;
    leave None
  else
    rc <- e_py_convert attr false ;;
    if negb (rc =? 0) then
      r <- TRY_CATCH (fun L => lua_gettable code L (-2)) ;;
      match r with
      | None => leave None
      | Some _ =>
          r <- LuaConvert (-1) ;;
          leave r
      end
    else
      PyErr_SetString PyExc_ValueError "can't convert attr/key" ;;
      leave None.

Definition LuaObject_setattr (obj : LuaObject) (attr value : PyObject)
  : M Z :=
  modL (fun L => lua_rawgeti L LUA_REGISTRYINDEX (ref obj)) ;;
  lost <- getL (fun L => lua_isnil L (-1)) ;;
  if lost then
    PyErr_SetString PyExc_RuntimeError "lost reference" ;;
    leave (-1)
  else
  is_table <- getL (fun L => lua_istable L (-1)) ;;
  if negb is_table then
    PyErr_SetString PyExc_TypeError "Lua object is not a table" ;;
    leave (-1)
  else
    rc <- e_py_convert attr false ;;
    if negb (rc =? 0) then
      rc <- e_py_convert value false ;;
      if negb (rc =? 0) then
        r <- TRY_CATCH (fun L => lua_settable code L (-3)) ;;
        match r with
        | None => leave (-1)
        | Some _ => leave 0
        end
      else
        PyErr_SetString PyExc_ValueError "can't convert value" ;;
        leave (-1)
    else
      PyErr_SetString PyExc_ValueError "can't convert key/attr" ;;
      leave (-1).

Definition LuaObject_str (obj : LuaObject) : M (option PyObject) :=
  modL (fun L => lua_rawgeti L LUA_REGISTRYINDEX (ref obj)) ;;
  r <- TRY_CATCH (fun L => luaL_callmeta code L (-1) "__tostring") ;;
  let r := default 0 r in
  ret1 <- (if negb (r =? 0) then
             s <- getL (fun L => lua_tolstring L (-1)) ;;
             modL (fun L => lua_pop L 1) ;;
             match s with
             | CNULL => ret None
             | _ => PyString_FromString s
             end
           else ret None) ;;
  ret2 <- match ret1 with
          | Some _ => ret ret1
          | None =>
              type <- getL (fun L => lua_type L (-1)) ;;
              p <- getL (fun L => lua_topointer L (-1)) ;;
              match type with
              | LUA_TTABLE | LUA_TFUNCTION =>
                  PyString_FromFormat "<Lua %s at %p/r=%d>"
                    [ArgStr (CStr (lua_typename type)); ArgPtr p;
                     ArgInt (ref obj)]
              | LUA_TUSERDATA | LUA_TLIGHTUSERDATA | LUA_TTHREAD =>
                  PyString_FromFormat "<Lua %s at %p>"
                    [ArgStr (CStr (lua_typename type)); ArgPtr p]
              | _ =>
                  PyString_FromFormat "<Lua %s>"
                    [ArgStr (CStr (lua_typename type))]
              end
          end ;;
  modL (fun L => lua_pop L 1) ;;
  ret ret2.

Definition LuaObject_call (obj : LuaObject) (args : list (option PyObject))
  : M (option PyObject) :=
  modL (fun L => lua_settop L 0) ;;
  modL (fun L => lua_rawgeti L LUA_REGISTRYINDEX (ref obj)) ;;
  LuaCall args.

(** The proxy is passed by pointer and its [refiter] field is assigned:
    the operation returns the proxy as it is afterwards. *)
Definition LuaObject_iternext (obj : LuaObject)
  : M (option PyObject * LuaObject) :=
  modL (fun L => lua_rawgeti L LUA_REGISTRYINDEX (ref obj)) ;;
  (if refiter obj =? LUA_NOREF
   then modL lua_pushnil
   else modL (fun L => lua_rawgeti L LUA_REGISTRYINDEX (refiter obj))) ;;
  r <- TRY_CATCH (fun L => lua_next L (-2)) ;;
  let r := default 0 r in
  if negb (r =? 0) then
    (* Remove value. *)
    modL (fun L => lua_pop L 1) ;;
    res <- LuaConvert (-1) ;;
    (* Save key for next iteration. *)
    if refiter obj =? LUA_NOREF then
      r <- opL luaL_ref ;;
      ret (res, mkLuaObject (ref obj) r)
    else
      modL (fun L => lua_rawseti L LUA_REGISTRYINDEX (refiter obj)) ;;
      ret (res, obj)
  else if negb (refiter obj =? LUA_NOREF) then
    modL (fun L => luaL_unref L (refiter obj)) ;;
    ret (None, mkLuaObject (ref obj) LUA_NOREF)
  else ret (None, obj).

Definition LuaObject_length (obj : LuaObject) : M Z :=
  modL (fun L => lua_rawgeti L LUA_REGISTRYINDEX (ref obj)) ;;
  len <- getL (fun L => lua_objlen L (-1)) ;;
  modL (fun L => lua_settop L 0) ;;
  ret len.

Definition LuaObject_subscript := LuaObject_getattr.
Definition LuaObject_ass_subscript := LuaObject_setattr.

(** The text handed to the compiler: [sizeof("return ")-1] bytes of
    "return " followed by the [len] bytes of [s] when [eval] is set. *)
Definition chunk_text (s : string) (eval : bool) : string :=
  if eval then "return " ++ s else s.

Definition LuaState_run (args : list (option PyObject)) (eval : bool)
  : M (option PyObject) :=
  parsed <- PyArg_ParseTuple_s args ;;
  match parsed with
  | None => leave None
  | Some s =>
      rc <- opL (fun L => luaL_loadbuffer code L (chunk_text s eval)) ;;
      if negb (rc =? 0) then
        msg <- getL (fun L => lua_tolstring L (-1)) ;;
        PyErr_Format PyExc_RuntimeError "error loading code: %s"
                     [ArgStr msg] ;;
        leave None
      else
        rc <- opL (fun L => lua_pcall code L 0 1) ;;
        if negb (rc =? 0) then
          msg <- getL (fun L => lua_tolstring L (-1)) ;;
          PyErr_Format PyExc_RuntimeError "error executing code: %s"
                       [ArgStr msg] ;;
          leave None
        else
          r <- LuaConvert (-1) ;;
          leave r
  end.

Definition LuaState_execute (args : list (option PyObject))
  : M (option PyObject) := LuaState_run args false.
Definition LuaState_eval (args : list (option PyObject))
  : M (option PyObject) := LuaState_run args true.

End Bridge.

(** ** The other half of the bridge, and observation *)

(** Modelled from the spec: [py_convert] of pythoninlua.c, which is not among
    the sources.  Spec 4.1, [to_guest]: none becomes nil only when permitted
    and is rejected otherwise, with nothing pushed; booleans, integers, floats
    and strings become the Guest primitives; a proxy pushes the value its
    registry handle names; any other object is wrapped as an opaque userdata
    that carries it.  (A string whose text is symbolic has no Guest string.) *)
Definition py_convert_model (L : lua_State) (o : PyObject) (withnone : bool)
  : lua_res Z :=
  match o with
  | Py_None => if withnone then LOk 1 (lua_pushnil L) else LOk 0 L
  | Py_True => LOk 1 (lua_pushboolean L true)
  | Py_False => LOk 1 (lua_pushboolean L false)
  | PyInt v => LOk 1 (lua_pushnumber L (long_to_double v))
  | PyFloat d => LOk 1 (lua_pushnumber L d)
  | PyString s => LOk 1 (lua_pushlstring L s)
  | PyStringF _ _ => LUndefined "the text of a formatted string is symbolic"
  | PyLuaObject p => LOk 1 (lua_rawgeti L LUA_REGISTRYINDEX (ref p))
  | PyTuple _ => LOk 1 (push (LUserdata 0 (Some o)) L)
  | PyOther id => LOk 1 (push (LUserdata id (Some o)) L)
  end.

(** Spec 8, round trip: [to_host(to_guest(v))], the Guest value read back
    from the top of the stack, as the attribute access of a proxy does. *)
Definition roundtrip (v : PyObject) : M (option PyObject) :=
  (rc <- e_py_convert py_convert_model v false ;;
   if rc =? 0 then leave None
   else r <- LuaConvert (-1) ;; leave r)%bridge.

(** Python's [==] on the primitive values; an integer equals a float when
    the float is that integer. *)
Definition py_number (o : PyObject) : option (Z + float) :=
  match o with
  | Py_True => Some (inl 1)
  | Py_False => Some (inl 0)
  | PyInt v => Some (inl v)
  | PyFloat d => Some (inr d)
  | _ => None
  end.

Definition int_eq_float (z : Z) (d : float) : bool :=
  PrimFloat.eqb d (long_to_double (double_to_long d)) && (double_to_long d =? z).

Definition observably_equal (a b : PyObject) : bool :=
  match a, b with
  | Py_None, Py_None => true
  | PyString s, PyString t => String.eqb s t
  | _, _ =>
      match py_number a, py_number b with
      | Some (inl x), Some (inl y) => x =? y
      | Some (inr x), Some (inr y) => PrimFloat.eqb x y
      | Some (inl x), Some (inr y) => int_eq_float x y
      | Some (inr x), Some (inl y) => int_eq_float y x
      | _, _ => false
      end
  end.

(** What a call left behind, for the operations that return. *)
Definition returned {A} (o : outcome A) : option A :=
  match o with Ret a _ => Some a | _ => None end.
Definition world_after {A} (o : outcome A) : option World :=
  match o with Ret _ w => Some w | _ => None end.
Definition stack_after {A} (o : outcome A) : option (list TValue) :=
  match o with Ret _ w => Some (stack (lua w)) | _ => None end.
Definition error_after {A} (o : outcome A) : option (option py_error) :=
  match o with Ret _ w => Some (pyerr w) | _ => None end.

(** The arguments [args] are converted in order, each with success, taking
    the world from [w] to [w']. *)
Inductive pushed (py_convert : lua_State -> PyObject -> bool -> lua_res Z)
  : World -> list PyObject -> World -> Prop :=
| pushed_nil w : pushed py_convert w [] w
| pushed_cons w a rc w1 l w2 :
    e_py_convert py_convert a false w = Ret rc w1 ->
    rc <> 0 ->
    pushed py_convert w1 l w2 ->
    pushed py_convert w (a :: l) w2.


(** The key iteration resumes from: nil before the first step, then the
    value the cursor handle names. *)
Definition cursor (obj : LuaObject) (L : lua_State) : TValue :=
  if refiter obj =? LUA_NOREF then LNil
  else default LNil (registry (heap L) !! refiter obj).

(** The state the body of a TRY block starts in: the caller's, with
    [py_lua_panic] as the panic function. *)
Definition installed (L : lua_State) : lua_State :=
  mkState (stack L) (heap L) (Some fn_py_lua_panic).

(** The state after a TRY block: the body's, with the panic function the
    caller had. *)
Definition restored (L : lua_State) (w : World) : lua_State :=
  mkState (stack L) (heap L) (panic (lua w)).

(** One step of iteration on the proxy [obj] whose handle names the table
    [a], where [(k, v)] is the entry that follows the cursor: the step
    answers what [LuaConvert] makes of [component (k, v)] on top of the
    stack, and keeps [k] as the new cursor, under a handle that was not in
    use when this is the first step and under the same handle afterwards. *)
Definition iternext_step (component : TValue * TValue -> TValue)
           (obj : LuaObject) (w : World) (a : Z) (k v : TValue) : Prop :=
  exists (res : option PyObject) (obj' : LuaObject) (w2 w3 : World),
    LuaConvert (-1)
      (set_lua (set_stack (stack (lua w) ++ [LTable a; component (k, v)])
                          (lua w)) w)
    = Ret res w2
    /\ LuaObject_iternext obj w = Ret (res, obj') w3
    /\ ref obj' = ref obj
    /\ (refiter obj = LUA_NOREF ->
        registry (heap (lua w2)) !! refiter obj' = None)
    /\ (refiter obj <> LUA_NOREF -> refiter obj' = refiter obj)
    /\ registry (heap (lua w3)) !! refiter obj' = Some k.

(** ** A small Lua program, for concrete runs *)

Module Demo.

(** Function 1 raises "boom", 2 returns its arguments, 3 returns table 1,
    4 returns the number 2, 6 returns 2.5, and any other returns nothing.
    The chunk "return 1+1" compiles to function 4, "return 2.5" to
    function 6, "x = 1" to function 5; no value has a metatable. *)
Definition demo_code : LuaCode := {|
  lc_run := fun f args h =>
    match f with
    | 1 => (h, inl (LString "boom"))
    | 2 => (h, inr args)
    | 3 => (h, inr [LTable 1])
    | 4 => (h, inr [LNumber 2%float])
    | 6 => (h, inr [LNumber 2.5%float])
    | _ => (h, inr [])
    end;
  lc_compile := fun s =>
    if String.eqb s "return 1+1" then inr 4
    else if String.eqb s "return 2.5" then inr 6
    else if String.eqb s "x = 1" then inr 5
    else inl (LString "syntax error");
  lc_metamethod := fun _ _ _ => None;
|}.

(** Table 1 is [{a = 1}]; the registry names function 1 by handle 1,
    function 2 by 2, function 3 by 3 and table 1 by 4. *)
Definition demo_heap : lua_heap := {|
  registry := <[1 := LFunction 1]> (<[2 := LFunction 2]>
              (<[3 := LFunction 3]> (<[4 := LTable 1]> ∅)));
  tables := <[1 := [(LString "a", LNumber 1%float)]]> ∅;
|}.

Definition demo_state : lua_State := {|
  stack := [];
  heap := demo_heap;
  panic := Some fn_py_lua_module_panic;
|}.

Definition demo_world (free : nat) : World := {|
  lua := demo_state;
  pyerr := None;
  py_free := free;
|}.

Definition proxy (r : Z) : LuaObject := mkLuaObject r LUA_NOREF.

(** The state [LuaObject_call] hands to [LuaCall]: the callee alone. *)
Definition demo_call_world (f : Z) (free : nat) : World :=
  mkWorld (mkState [LFunction f] demo_heap (Some fn_py_lua_module_panic))
          None free.

(** The same with the converted arguments [vs] above function 2. *)
Definition demo_pushed_world (vs : list TValue) (free : nat) : World :=
  mkWorld (mkState (LFunction 2 :: vs) demo_heap
                   (Some fn_py_lua_module_panic)) None free.


End Demo.

(** ** More of luainpython.c: destruction, globals, require, the loop *)

Section Instance.

Variable code : LuaCode.
Variable py_convert : lua_State -> PyObject -> bool -> lua_res Z.

(** The table of globals of the thread, [gt(L)], which the pseudo-index
    LUA_GLOBALSINDEX names.  The state record does not hold it. *)
Variable l_gt : TValue.

Definition LUA_GLOBALSINDEX : Z := -10002.

(** An API call made outside a TRY block and outside [lua_pcall]. *)
Definition unprotected {A} (f : lua_State -> lua_res A) : M A := fun w =>
  match f (lua w) with
  | LOk a L => Ret a (set_lua L w)
  | LThrow e L => luaD_throw e (set_lua L w)
  | LUndefined why => Undefined why
  end.

(** [lua_pushvalue(L, LUA_GLOBALSINDEX)] *)
Definition lua_pushglobals (L : lua_State) : lua_State := push l_gt L.

(** [lua_rawget(L, LUA_GLOBALSINDEX)]: the key on top is replaced by the
    raw value the table of globals has for it.  The API does not check that
    the value at the index is a table. *)
Definition lua_rawget_globals (L : lua_State) : lua_res unit :=
  match l_gt with
  | LTable a => LOk tt (push (rawget (table_at L a) (slot L (-1))) (lua_pop L 1))
  | _ => LUndefined "lua_rawget on a value that is not a table"
  end.

Definition lua_pushliteral (L : lua_State) (s : string) : lua_State :=
  push (LString s) L.

(** [Py_DECREF(self->state)] and [tp_free] are not represented (object
    lifetimes are not). *)
Definition LuaObject_dealloc (self : LuaObject) : M unit :=
  modL (fun L => luaL_unref L (ref self)) ;;
  (if negb (refiter self =? LUA_NOREF)
   then modL (fun L => luaL_unref L (refiter self))
   else ret tt).

Definition LuaState_globals : M (option PyObject) :=
  modL lua_pushglobals ;;
  lost <- getL (fun L => lua_isnil L (-1)) ;;
  if lost then
    PyErr_SetString PyExc_RuntimeError "lost globals reference" ;;
    modL (fun L => lua_pop L 1) ;;
    ret None
  else
    r <- LuaConvert (-1) ;;
    (match r with
     | None => PyErr_Format PyExc_TypeError "failed to convert globals table" []
     | Some _ => ret tt
     end) ;;
    modL (fun L => lua_settop L 0) ;;
    ret r.

Definition LuaState_require (args : list (option PyObject))
  : M (option PyObject) :=
  modL (fun L => lua_pushliteral L "require") ;;
  unprotected lua_rawget_globals ;;
  undefined <- getL (fun L => lua_isnil L (-1)) ;;
  if undefined then
    modL (fun L => lua_pop L 1) ;;
    PyErr_SetString PyExc_RuntimeError "require is not defined" ;;
    ret None
  else LuaCall code py_convert args.

End Instance.

(** The Host's loop over a proxy ([tp_iter] answers the proxy itself):
    [tp_iternext] is called until it answers NULL, at most [fuel] times; the
    objects it answered, and the proxy as it is afterwards. *)
Fixpoint iterate (fuel : nat) (obj : LuaObject)
  : M (list PyObject * LuaObject) :=
  match fuel with
  | O => ret ([], obj)
  | S fuel' =>
      (r <- LuaObject_iternext obj ;;
       match r with
       | (None, obj') => ret ([], obj')
       | (Some o, obj') =>
           rest <- iterate fuel' obj' ;;
           ret (o :: fst rest, snd rest)
       end)%bridge
  end.

(** * Properties *)

(** ** Tactics *)

(** Unfolding the bridge's monad and the rebuilt states and worlds. *)
Ltac run :=
  repeat (progress
            (cbv beta iota delta
                 [bind ret getL modL opL leave PyErr_SetString PyErr_Format
                  PyErr_SetObject set_lua set_err set_stack set_heap
                  set_registry set_tables restored installed push];
             cbn [lua pyerr py_free stack heap panic registry tables fst snd
                  Z.eqb negb])).

(** The same, in a hypothesis. *)
Tactic Notation "run" "in" hyp(H) :=
  repeat (progress
            (cbv beta iota delta
                 [bind ret getL modL opL leave PyErr_SetString PyErr_Format
                  PyErr_SetObject set_lua set_err set_stack set_heap
                  set_registry set_tables restored installed push] in H;
             cbn [lua pyerr py_free stack heap panic registry tables fst snd
                  Z.eqb negb] in H)).

(** ** The value stack *)

Section Stack.

Variables (h : lua_heap) (p : option lua_CFunction).

Lemma gettop_app (st suf : list TValue) :
  lua_gettop (mkState (st ++ suf) h p)
  = Z.of_nat (length st) + Z.of_nat (length suf).
Proof. unfold lua_gettop. simpl. rewrite length_app. lia. Qed.

(** A negative index counts from the top. *)
Lemma index2adr_from_top (st suf : list TValue) (k : nat) :
  (0 < k <= length suf)%nat ->
  index2adr (mkState (st ++ suf) h p) (- Z.of_nat k)
  = suf !! (length suf - k)%nat.
Proof.
  intros Hk. unfold index2adr. rewrite gettop_app.
  destruct (Z.ltb_spec 0 (- Z.of_nat k)); [lia|].
  destruct (Z.ltb_spec (- Z.of_nat k) 0); [|lia].
  destruct (Z.leb_spec 0 (Z.of_nat (length st) + Z.of_nat (length suf)
                          + - Z.of_nat k)); [|lia]. simpl.
  replace (Z.to_nat _) with (length st + (length suf - k))%nat by lia.
  rewrite lookup_app_r by lia. f_equal. lia.
Qed.

Lemma index2adr_top (st : list TValue) (v : TValue) :
  index2adr (mkState (st ++ [v]) h p) (-1) = Some v.
Proof. exact (index2adr_from_top st [v] 1 ltac:(simpl; lia)). Qed.

Lemma index2adr_top2 (st : list TValue) (a b : TValue) :
  index2adr (mkState (st ++ [a; b]) h p) (-1) = Some b
  /\ index2adr (mkState (st ++ [a; b]) h p) (-2) = Some a.
Proof.
  split.
  - exact (index2adr_from_top st [a; b] 1 ltac:(simpl; lia)).
  - exact (index2adr_from_top st [a; b] 2 ltac:(simpl; lia)).
Qed.

(** Popping what was pushed. *)
Lemma lua_pop_app (st suf : list TValue) :
  lua_pop (mkState (st ++ suf) h p) (Z.of_nat (length suf)) = mkState st h p.
Proof.
  unfold lua_pop, lua_settop, set_stack. rewrite gettop_app. simpl.
  destruct (Z.leb_spec 0 (- Z.of_nat (length suf) - 1)); [lia|].
  replace (Z.to_nat _) with (length st) by lia.
  f_equal. rewrite length_app.
  replace (length st - _)%nat with 0%nat by lia.
  simpl. rewrite app_nil_r. apply take_app_length.
Qed.

Lemma lua_pop_1 (st : list TValue) (v : TValue) :
  lua_pop (mkState (st ++ [v]) h p) 1 = mkState st h p.
Proof. exact (lua_pop_app st [v]). Qed.

End Stack.

(** ** The registry *)

Section References.

(** No key in use is above the largest. *)
Lemma fresh_ref_above (r : gmap Z TValue) (k : Z) (v : TValue) :
  r !! k = Some v -> k < fresh_ref r.
Proof.
  unfold fresh_ref.
  revert k v.
  induction r as [|i x m Hi Hfold IH] using map_first_key_ind.
  - intros k v H. rewrite lookup_empty in H. discriminate.
  - intros k v H. rewrite map_fold_insert_first_key by assumption.
    destruct (decide (i = k)) as [->|Hne].
    + lia.
    + rewrite lookup_insert_ne in H by exact Hne.
      specialize (IH k v H). lia.
Qed.

(** [luaL_ref] answers a handle that was not in use. *)
Lemma fresh_ref_fresh (r : gmap Z TValue) : r !! fresh_ref r = None.
Proof.
  destruct (r !! fresh_ref r) as [v|] eqn:E; [|reflexivity].
  apply fresh_ref_above in E. lia.
Qed.

Lemma luaL_ref_pushed (st : list TValue) (h : lua_heap)
      (p : option lua_CFunction) (x : TValue) :
  luaL_ref (mkState (st ++ [x]) h p)
  = if is_nil x then (LUA_REFNIL, mkState st h p)
    else (fresh_ref (registry h),
          mkState st (mkHeap (<[fresh_ref (registry h) := x]> (registry h))
                             (tables h)) p).
Proof.
  unfold luaL_ref, top_value. rewrite index2adr_top.
  cbn [default from_option id].
  destruct (is_nil x) eqn:E.
  - rewrite lua_pop_1. reflexivity.
  - unfold registry_set. rewrite E.
    unfold set_registry, set_heap. cbn [stack heap panic registry tables].
    rewrite lua_pop_1. reflexivity.
Qed.

Lemma lua_rawseti_registry (st : list TValue) (h : lua_heap)
      (p : option lua_CFunction) (x : TValue) (r : Z) :
  is_nil x = false ->
  lua_rawseti (mkState (st ++ [x]) h p) LUA_REGISTRYINDEX r
  = mkState st (mkHeap (<[r := x]> (registry h)) (tables h)) p.
Proof.
  intros E. unfold lua_rawseti, top_value. rewrite index2adr_top.
  cbn [default from_option id Z.eqb LUA_REGISTRYINDEX Pos.eqb].
  unfold registry_set. rewrite E.
  unfold set_registry, set_heap. cbn [stack heap panic registry tables].
  rewrite lua_pop_1. reflexivity.
Qed.

(** A conversion leaves the stack, the tables and the panic function as
    they are: at most it adds a handle to the registry. *)
Lemma LuaConvert_frame (n : Z) (w : World) (r : option PyObject) (w' : World) :
  LuaConvert n w = Ret r w' ->
  stack (lua w') = stack (lua w)
  /\ panic (lua w') = panic (lua w)
  /\ tables (heap (lua w')) = tables (heap (lua w)).
Proof.
  destruct w as [[st h p] e k].
  assert (Hnew : forall r w',
             LuaObject_New n (mkWorld (mkState st h p) e k) = Ret r w' ->
             stack (lua w') = st /\ panic (lua w') = p
             /\ tables (heap (lua w')) = tables h).
  { intros r0 w0. unfold LuaObject_New, py_new, lua_pushvalue. run.
    destruct k as [|k]; run.
    - intros H. injection H as <- <-. auto.
    - rewrite luaL_ref_pushed.
      destruct (is_nil _); intros H; injection H as <- <-; auto. }
  unfold LuaConvert. run.
  destruct (lua_type _ n); try exact (Hnew r w').
  - intros H. injection H as <- <-. auto.
  - destruct (lua_toboolean _ n); intros H; injection H as <- <-; auto.
  - destruct (_ && _).
    + unfold PyFloat_FromDouble, py_new. run.
      destruct k; intros H; injection H as <- <-; auto.
    + unfold PyInt_FromLong, py_new. run.
      destruct (_ && _); run; [intros H; injection H as <- <-; auto|].
      destruct k; intros H; injection H as <- <-; auto.
  - unfold PyString_FromStringAndSize, py_new. run.
    destruct k; intros H; injection H as <- <-; auto.
  - destruct (check_py_object _ n); [|exact (Hnew r w')].
    intros H. injection H as <- <-. auto.
Qed.

End References.

(** ** The protected boundary *)

Section Boundary.

Context {A : Type}.
Variable body : lua_State -> lua_res A.

Lemma py_lua_panic_jumps (w : World) :
  exists w', py_lua_panic w = Longjmp w' /\ lua w' = lua w.
Proof.
  unfold py_lua_panic, bind, getL, PyString_FromStringAndSize, py_new.
  destruct (py_free w); simpl; eexists; split; reflexivity.
Qed.

Lemma luaD_throw_installed (e : TValue) (w : World) :
  panic (lua w) = Some fn_py_lua_panic ->
  exists w', luaD_throw (A:=unit) e w = Longjmp w'
             /\ lua w' = set_stack [e] (lua w).
Proof.
  intros Hp. unfold luaD_throw, bind, modL, getL. simpl. rewrite Hp. simpl.
  destruct (py_lua_panic_jumps (set_lua (set_stack [e] (lua w)) w))
    as (w' & -> & Hl).
  exists w'. split; [reflexivity | exact Hl].
Qed.

(** C8.  The body of a TRY block runs with [py_lua_panic] installed, and
    whenever control comes back from the block, by its end or through the
    CATCH branch, the panic function is the one that was there before the
    block.  A Lua error raised by the body arrives in the CATCH branch; a
    jump never leaves the block. *)
Theorem TRY_CATCH_restores_handler (w : World) :
  match TRY_CATCH body w with
  | Ret r w' =>
      panic (lua w') = panic (lua w) /\
      match body (installed (lua w)) with
      | LOk a L2 =>
          r = Some a /\ stack (lua w') = stack L2 /\ heap (lua w') = heap L2
      | LThrow e L2 =>
          r = None /\ stack (lua w') = [e] /\ heap (lua w') = heap L2
      | LUndefined _ => False
      end
  | Longjmp _ => False
  | Exit _ =>
      exists e L2, body (installed (lua w)) = LThrow e L2
                   /\ panic L2 <> Some fn_py_lua_panic
  | Undefined why => body (installed (lua w)) = LUndefined why
  end.
Proof.
  unfold TRY_CATCH, lua_atpanic, installed.
  destruct (body _) as [a L2 | e L2 | why] eqn:Hb; simpl.
  - repeat split; reflexivity.
  - destruct (panic L2) as [[|]|] eqn:Hp.
    + destruct (luaD_throw_installed e (set_lua L2 w) Hp) as (w3 & -> & Hl).
      simpl. rewrite Hl. repeat split; reflexivity.
    + unfold luaD_throw, bind, modL, getL. simpl. rewrite Hp. simpl.
      exists e, L2. split; [reflexivity | rewrite Hp; discriminate].
    + unfold luaD_throw, bind, modL, getL. simpl. rewrite Hp. simpl.
      exists e, L2. split; [reflexivity | rewrite Hp; discriminate].
  - reflexivity.
Qed.

End Boundary.

Section BoundaryRuns.

Import Demo.

(** Both ways through a TRY block, on the small program: the lookup of "a"
    in table 1, and in function 1, which raises. *)
Lemma TRY_CATCH_restores_handler_witness :
  (exists w',
      TRY_CATCH (fun L => lua_gettable demo_code L (-2))
                (mkWorld (mkState [LTable 1; LString "a"] demo_heap
                                  (Some fn_py_lua_module_panic)) None 1)
      = Ret (Some tt) w'
      /\ panic (lua w') = Some fn_py_lua_module_panic
      /\ stack (lua w') = [LTable 1; LNumber 1%float])
  /\ (exists w',
         TRY_CATCH (fun L => lua_gettable demo_code L (-2))
                   (mkWorld (mkState [LFunction 1; LString "a"] demo_heap
                                     (Some fn_py_lua_module_panic)) None 1)
         = Ret None w'
         /\ panic (lua w') = Some fn_py_lua_module_panic
         /\ stack (lua w')
            = [LString "attempt to index a function value"]).
Proof.
  split.
  - pose proof (TRY_CATCH_restores_handler
                  (fun L => lua_gettable demo_code L (-2))
                  (mkWorld (mkState [LTable 1; LString "a"] demo_heap
                                    (Some fn_py_lua_module_panic)) None 1))
      as H.
    destruct (TRY_CATCH _ _) as [r w' | | |] eqn:E;
      vm_compute in E; try discriminate.
    vm_compute in H. destruct H as (Hp & Hr & Hs & _).
    exists w'. rewrite Hr. repeat split; assumption.
  - pose proof (TRY_CATCH_restores_handler
                  (fun L => lua_gettable demo_code L (-2))
                  (mkWorld (mkState [LFunction 1; LString "a"] demo_heap
                                    (Some fn_py_lua_module_panic)) None 1))
      as H.
    destruct (TRY_CATCH _ _) as [r w' | | |] eqn:E;
      vm_compute in E; try discriminate.
    vm_compute in H. destruct H as (Hp & Hr & Hs & _).
    exists w'. rewrite Hr. repeat split; assumption.
Defined.

End BoundaryRuns.

(** ** The value converter *)

Section Converter.

Import Demo.

Variable py_convert : lua_State -> PyObject -> bool -> lua_res Z.

(** A conversion that pushes a value. *)
Lemma e_py_convert_ok (o : PyObject) (b : bool) (w : World) (rc : Z)
      (L1 : lua_State) :
  py_convert (installed (lua w)) o b = LOk rc L1 ->
  rc <> 0 ->
  e_py_convert py_convert o b w = Ret rc (set_lua (restored L1 w) w).
Proof.
  intros Hc Hrc. unfold e_py_convert, bind, TRY_CATCH, lua_atpanic.
  fold (installed (lua w)). rewrite Hc. cbn [default from_option id snd].
  destruct (Z.eqb_spec rc 0) as [E|E]; [contradiction|].
  reflexivity.
Qed.

(** A conversion that pushes nothing. *)
Lemma e_py_convert_rejected (o : PyObject) (b : bool) (w : World)
      (L1 : lua_State) :
  py_convert (installed (lua w)) o b = LOk 0 L1 ->
  e_py_convert py_convert o b w
  = Ret 0 (set_err (PyErr_Msg PyExc_RuntimeError "can't convert" [])
             (set_lua (restored L1 w) w)).
Proof.
  intros Hc. unfold e_py_convert, bind, TRY_CATCH, lua_atpanic.
  fold (installed (lua w)). rewrite Hc. reflexivity.
Qed.

(** [LuaConvert] returns, whatever the slot holds. *)
Lemma LuaConvert_returns (n : Z) (w : World) :
  exists r w', LuaConvert n w = Ret r w'.
Proof.
  unfold LuaConvert, bind, getL.
  destruct (lua_type (lua w) n); simpl;
    unfold LuaObject_New, PyString_FromStringAndSize, PyFloat_FromDouble,
           PyInt_FromLong, py_new, bind, modL, opL, ret; simpl;
    repeat match goal with
           | |- context [match py_free ?w with _ => _ end] =>
               destruct (py_free w)
           | |- context [if ?c then _ else _] => destruct c
           | |- context [match check_py_object ?L ?n with _ => _ end] =>
               destruct (check_py_object L n)
           | |- context [let '(_, _) := ?x in _] => destruct x
           end; simpl; eauto.
Qed.

(** The slip of the number case: a number with a fractional part is
    answered by the float of the stack index [n], not of the number. *)
Lemma LuaConvert_fraction (n : Z) (d : float) (w : World) :
  index2adr (lua w) n = Some (LNumber d) ->
  double_neq d (long_to_double (double_to_long d)) = true ->
  LuaConvert n w = PyFloat_FromDouble (long_to_double n) w.
Proof.
  intros Hs Hd. unfold LuaConvert, bind, getL, lua_type, lua_tonumber.
  rewrite Hs. cbn [ttype]. rewrite Hs. unfold LUA_NUMBER_DOUBLE. cbn [andb].
  rewrite Hd. reflexivity.
Qed.

(** A number without fractional part is answered by the integer. *)
Lemma LuaConvert_integral (n : Z) (d : float) (w : World) :
  index2adr (lua w) n = Some (LNumber d) ->
  double_neq d (long_to_double (double_to_long d)) = false ->
  LuaConvert n w = PyInt_FromLong (double_to_long d) w.
Proof.
  intros Hs Hd. unfold LuaConvert, bind, getL, lua_type, lua_tonumber.
  rewrite Hs. cbn [ttype]. rewrite Hs. unfold LUA_NUMBER_DOUBLE. cbn [andb].
  rewrite Hd. reflexivity.
Qed.

Lemma LuaConvert_nil (n : Z) (w : World) :
  index2adr (lua w) n = Some LNil ->
  LuaConvert n w = Ret (Some Py_None) w.
Proof.
  intros Hs. unfold LuaConvert, bind, getL, lua_type. rewrite Hs. reflexivity.
Qed.

Lemma LuaConvert_boolean (n : Z) (b : bool) (w : World) :
  index2adr (lua w) n = Some (LBoolean b) ->
  LuaConvert n w = Ret (Some (if b then Py_True else Py_False)) w.
Proof.
  intros Hs. unfold LuaConvert, bind, getL, lua_type, lua_toboolean.
  rewrite Hs. cbn [ttype]. rewrite Hs. destruct b; reflexivity.
Qed.

Lemma LuaConvert_string (n : Z) (s : string) (w : World) :
  index2adr (lua w) n = Some (LString s) ->
  LuaConvert n w = py_new (PyString s) w.
Proof.
  intros Hs. unfold LuaConvert, bind, getL, lua_type, lua_tolstring.
  rewrite Hs. cbn [ttype]. rewrite Hs. reflexivity.
Qed.

End Converter.

Section RoundTrip.

Import Demo.

(** Booleans and strings come back as they went, from any state. *)
Lemma roundtrip_bool (b : bool) (w : World) :
  returned (roundtrip (if b then Py_True else Py_False) w)
  = Some (Some (if b then Py_True else Py_False)).
Proof.
  destruct w as [[st h p] e n].
  unfold roundtrip, bind.
  rewrite (e_py_convert_ok py_convert_model _ false _ 1
             (mkState (st ++ [LBoolean b]) h (Some fn_py_lua_panic)))
    by (destruct b; (reflexivity || discriminate)).
  cbn [Z.eqb]. unfold restored, set_lua. cbn [lua panic stack heap pyerr py_free].
  rewrite (LuaConvert_boolean (-1) b) by apply index2adr_top.
  reflexivity.
Qed.

Lemma roundtrip_string (s : string) (w : World) :
  (0 < py_free w)%nat ->
  returned (roundtrip (PyString s) w) = Some (Some (PyString s)).
Proof.
  destruct w as [[st h p] e n]. cbn [py_free]. intros Hn.
  destruct n as [|n]; [lia|].
  unfold roundtrip, bind.
  rewrite (e_py_convert_ok py_convert_model _ false _ 1
             (mkState (st ++ [LString s]) h (Some fn_py_lua_panic)))
    by (reflexivity || discriminate).
  cbn [Z.eqb]. unfold restored, set_lua. cbn [lua panic stack heap pyerr py_free].
  rewrite (LuaConvert_string (-1) s) by apply index2adr_top.
  reflexivity.
Qed.

(** A float with a fractional part comes back as the float of the index it
    is read at, from any state with memory for one object. *)
Lemma roundtrip_fraction (d : float) (w : World) :
  double_neq d (long_to_double (double_to_long d)) = true ->
  (0 < py_free w)%nat ->
  returned (roundtrip (PyFloat d) w) = Some (Some (PyFloat (long_to_double (-1)))).
Proof.
  destruct w as [[st h p] e n]. cbn [py_free]. intros Hd Hn.
  destruct n as [|n]; [lia|].
  unfold roundtrip, bind.
  rewrite (e_py_convert_ok py_convert_model _ false _ 1
             (mkState (st ++ [LNumber d]) h (Some fn_py_lua_panic)))
    by (reflexivity || discriminate).
  cbn [Z.eqb]. unfold restored, set_lua. cbn [lua panic stack heap pyerr py_free].
  rewrite (LuaConvert_fraction (-1) d) by (try apply index2adr_top; exact Hd).
  reflexivity.
Qed.
(** C1.  The round trip at the float 2.5: the value that comes back is the
    float of the stack index it was read at, -1.0, which is not 2.5; so does
    the same value stored in a table through a proxy and read back, and the
    same value returned by an evaluated chunk.  The float 2.0 comes back as
    the integer 2, and 7, "x" and True come back as they went. *)
Theorem roundtrip_float_fraction_lost :
  returned (roundtrip (PyFloat 2.5) (demo_world 1)) = Some (Some (PyFloat (-1)))
  /\ observably_equal (PyFloat 2.5) (PyFloat (-1)) = false
  /\ (exists w,
        LuaObject_setattr demo_code py_convert_model (proxy 4)
          (PyString "x") (PyFloat 2.5) (demo_world 1) = Ret 0 w
        /\ returned (LuaObject_getattr demo_code py_convert_model (proxy 4)
                       (PyString "x") w) = Some (Some (PyFloat (-1))))
  /\ returned (LuaState_eval demo_code [Some (PyString "2.5")] (demo_world 1))
     = Some (Some (PyFloat (-1)))
  /\ returned (roundtrip (PyFloat 2) (demo_world 1)) = Some (Some (PyInt 2))
  /\ returned (roundtrip (PyInt 7) (demo_world 1)) = Some (Some (PyInt 7))
  /\ returned (roundtrip (PyString "x") (demo_world 1))
     = Some (Some (PyString "x"))
  /\ returned (roundtrip Py_True (demo_world 1)) = Some (Some Py_True).
Proof.
  split; [vm_compute; reflexivity|].
  split; [vm_compute; reflexivity|].
  split.
  { eexists. split; [vm_compute; reflexivity|]. vm_compute. reflexivity. }
  repeat split; vm_compute; reflexivity.
Qed.

End RoundTrip.

(** ** The protected call *)

Section ProtectedCall.

Variable code : LuaCode.

(** The protected call of [f] on [args], pushed above [below]. *)
Lemma lua_pcall_shape (below : list TValue) (f : TValue) (args : list TValue)
      (h : lua_heap) (p : option lua_CFunction) (nresults : Z) :
  lua_pcall code (mkState (below ++ f :: args) h p)
            (Z.of_nat (length args)) nresults
  = match call_value code f args h with
    | (h', inr rs) =>
        (0, mkState (below ++ adjust_results nresults rs) h' p)
    | (h', inl e) => (LUA_ERRRUN, mkState (below ++ [e]) h' p)
    end.
Proof.
  unfold lua_pcall. cbn [stack heap].
  rewrite Nat2Z.id, length_app. cbn [length].
  replace (length below + S (length args) - length args - 1)%nat
    with (length below) by lia.
  replace (length below + S (length args) - length args)%nat
    with (S (length below)) by lia.
  rewrite take_app_length.
  rewrite lookup_app_r by lia. rewrite Nat.sub_diag. cbn [lookup list_lookup default from_option id].
  replace (drop (S (length below)) (below ++ f :: args)) with args.
  2:{ rewrite drop_app_ge by lia.
      replace (S (length below) - length below)%nat with 1%nat by lia.
      reflexivity. }
  destruct (call_value code f args h) as [h' [e|rs]]; reflexivity.
Qed.

Lemma adjust_results_1 (rs : list TValue) :
  adjust_results 1 rs = [first_result rs].
Proof. destruct rs; reflexivity. Qed.

End ProtectedCall.

(** ** The runtime instance *)

Section RuntimeInstance.

Variable code : LuaCode.

(** C9.  [LuaState_run] on the source string [s]: the text given to the
    compiler is "return " followed by [s] for evaluate, and [s] itself for
    execute.  In both the compiled chunk is called with no argument and one
    result requested: whatever the chunk returns, exactly one value, its
    first result or nil, is pushed above the caller's stack and converted.
    A compile error or a run-time error returns NULL with the message. *)
Theorem LuaState_run_chunk (s : string) (eval : bool) (w : World) :
  LuaState_run code [Some (PyString s)] eval w
  = match lc_compile code (if eval then "return " ++ s else s) with
    | inl e =>
        Ret None
          (set_err (PyErr_Msg PyExc_RuntimeError "error loading code: %s"
                      [ArgStr (cstring_of e)])
             (set_lua (set_stack [] (lua w)) w))
    | inr f =>
        match lc_run code f [] (heap (lua w)) with
        | (h, inl e) =>
            Ret None
              (set_err (PyErr_Msg PyExc_RuntimeError
                          "error executing code: %s" [ArgStr (cstring_of e)])
                 (set_lua (mkState [] h (panic (lua w))) w))
        | (h, inr rs) =>
            (r <- LuaConvert (-1) ;; leave r)
              (set_lua (mkState (stack (lua w) ++ [first_result rs]) h
                                (panic (lua w))) w)
        end
    end.
Proof.
  destruct w as [[st h p] e n].
  unfold LuaState_run, PyArg_ParseTuple_s, chunk_text, luaL_loadbuffer.
  run.
  destruct (lc_compile code _) as [err|f]; run.
  - unfold LUA_ERRSYNTAX, lua_tolstring. run. rewrite index2adr_top.
    reflexivity.
  - pose proof (lua_pcall_shape code st (LFunction f) [] h p 1) as Hp.
    change (Z.of_nat (length [])) with 0 in Hp. rewrite Hp. clear Hp.
    cbn [call_value].
    destruct (lc_run code f [] h) as [h' [err|rs]]; run.
    + unfold LUA_ERRRUN, lua_tolstring. run. rewrite index2adr_top.
      reflexivity.
    + rewrite adjust_results_1. reflexivity.
Qed.

End RuntimeInstance.

Section RuntimeInstanceRuns.

Import Demo.

(** [lua.eval("1+1")] and [lua.execute("x = 1")] on the small program. *)
Lemma LuaState_run_chunk_witness :
  LuaState_eval demo_code [Some (PyString "1+1")] (demo_world 1)
  = Ret (Some (PyInt 2)) (demo_world 1)
  /\ LuaState_execute demo_code [Some (PyString "x = 1")] (demo_world 1)
     = Ret (Some Py_None) (demo_world 1).
Proof.
  unfold LuaState_eval, LuaState_execute. split.
  - rewrite (LuaState_run_chunk demo_code "1+1" true (demo_world 1)).
    reflexivity.
  - rewrite (LuaState_run_chunk demo_code "x = 1" false (demo_world 1)).
    reflexivity.
Defined.

End RuntimeInstanceRuns.

(** ** The call bridge *)

Section CallBridge.

Variable code : LuaCode.
Variable py_convert : lua_State -> PyObject -> bool -> lua_res Z.

Lemma cast_int_small (x : Z) : 0 <= x <= INT_MAX -> cast_int x = x.
Proof.
  unfold cast_int, INT_MAX. intros Hx.
  rewrite Z.mod_small by lia. lia.
Qed.

Lemma PyTuple_GetItem_middle (done : list (option PyObject)) (o : option PyObject)
      (rest : list (option PyObject)) :
  PyTuple_GetItem (done ++ o :: rest) (Z.of_nat (length done)) = o.
Proof.
  unfold PyTuple_GetItem.
  destruct (Z.leb_spec 0 (Z.of_nat (length done))); [|lia].
  rewrite Nat2Z.id, lookup_app_r by lia.
  rewrite Nat.sub_diag. reflexivity.
Qed.

(** The argument loop passes the arguments that convert. *)
Lemma LuaCall_args_pushed (w : World) (pre : list PyObject) (w1 : World) :
  pushed py_convert w pre w1 ->
  forall (fuel : nat) (done rest : list (option PyObject)) (nargs : Z),
    nargs = Z.of_nat (length (done ++ map Some pre ++ rest)) ->
    LuaCall_args py_convert (length pre + fuel) (done ++ map Some pre ++ rest)
                 nargs (Z.of_nat (length done)) w
    = LuaCall_args py_convert fuel (done ++ map Some pre ++ rest) nargs
                   (Z.of_nat (length done + length pre)) w1.
Proof.
  induction 1 as [w | w a rc w1 l w2 Hc Hrc Hp IH]; intros fuel done rest nargs Hn.
  - cbn [length Nat.add]. rewrite Nat.add_0_r. reflexivity.
  - cbn [length Nat.add map app] in *.
    cbn [LuaCall_args].
    destruct (Z.eqb_spec (Z.of_nat (length done)) nargs) as [E|_].
    { rewrite Hn, length_app in E. cbn [length] in E. lia. }
    rewrite PyTuple_GetItem_middle.
    unfold bind at 1. rewrite Hc.
    destruct (Z.eqb_spec rc 0) as [E|_]; [contradiction|].
    specialize (IH fuel (done ++ [Some a])%list rest nargs).
    assert (Heq : ((done ++ [Some a]) ++ map Some l ++ rest
                   = done ++ Some a :: map Some l ++ rest)%list)
      by (rewrite <- app_assoc; reflexivity).
    rewrite Heq in IH.
    assert (Hl1 : length (done ++ [Some a]) = S (length done))
      by (rewrite length_app; cbn [length]; lia).
    rewrite Hl1 in IH.
    replace (Z.of_nat (length done) + 1) with (Z.of_nat (S (length done)))
      by lia.
    rewrite (IH Hn). f_equal. lia.
Qed.

(** C6.  The arguments before position [length pre] convert, and the
    conversion of the argument [a] at that position fails.  Then [LuaCall]
    returns NULL, with a type error that carries the position, and with the
    Guest stack empty; the state is otherwise the one the failed conversion
    left, whatever the Lua code is: the protected call is not performed. *)
Theorem LuaCall_argument_failure (args : list (option PyObject))
        (pre : list PyObject) (a : PyObject) (rest : list (option PyObject))
        (w w1 w2 : World) :
  args = (map Some pre ++ Some a :: rest)%list ->
  Z.of_nat (length args) <= INT_MAX ->
  pushed py_convert w pre w1 ->
  e_py_convert py_convert a false w1 = Ret 0 w2 ->
  LuaCall code py_convert args w
  = Ret None
      (set_err (PyErr_Msg PyExc_TypeError "failed to convert argument #%d"
                  [ArgInt (Z.of_nat (length pre))])
         (set_lua (set_stack [] (lua w2)) w2)).
Proof.
  intros -> Hlen Hp Hc. unfold LuaCall, PyTuple_Size.
  rewrite cast_int_small by lia.
  unfold bind at 1.
  pose proof (LuaCall_args_pushed w pre w1 Hp
                (S (S (length rest))) [] (Some a :: rest) _ eq_refl) as Hl.
  cbn [app length Nat.add] in Hl. change (Z.of_nat 0) with 0 in Hl.
  replace (S (length (map Some pre ++ Some a :: rest)))
    with (length pre + (S (S (length rest))))%nat
    by (rewrite length_app, length_map; cbn [length]; lia).
  rewrite Hl. clear Hl.
  cbn [LuaCall_args].
  destruct (Z.eqb_spec (Z.of_nat (length pre))
              (Z.of_nat (length (map Some pre ++ Some a :: rest)))) as [E|_].
  { rewrite length_app, length_map in E. cbn [length] in E. lia. }
  assert (Hg : PyTuple_GetItem (map Some pre ++ Some a :: rest)
                               (Z.of_nat (length pre)) = Some a).
  { rewrite <- (length_map Some pre). apply PyTuple_GetItem_middle. }
  rewrite Hg. unfold bind at 1. rewrite Hc. run. reflexivity.
Qed.




(** The argument loop runs to its end when every argument converts. *)
Lemma LuaCall_args_all (pre : list PyObject) (w w1 : World) :
  pushed py_convert w pre w1 ->
  LuaCall_args py_convert (S (length (map Some pre))) (map Some pre)
               (Z.of_nat (length (map Some pre))) 0 w
  = Ret true w1.
Proof.
  intros Hp.
  pose proof (LuaCall_args_pushed w pre w1 Hp 1 [] [] _ eq_refl) as Hl.
  cbn [app length Nat.add] in Hl. change (Z.of_nat 0) with 0 in Hl.
  rewrite app_nil_r in Hl.
  replace (S (length (map Some pre))) with (length pre + 1)%nat
    by (rewrite length_map; lia).
  rewrite Hl. cbn [LuaCall_args]. rewrite length_map, Z.eqb_refl.
  reflexivity.
Qed.


(** In general: when the protected call fails, [LuaCall] returns with the
    error object as the only slot of the Guest stack. *)
Lemma LuaCall_failed_call_stack (pre : list PyObject) (w w1 : World)
      (f : TValue) (vs : list TValue) (h : lua_heap) (e : TValue) :
  Z.of_nat (length pre) <= INT_MAX ->
  pushed py_convert w pre w1 ->
  stack (lua w1) = f :: vs ->
  length vs = length pre ->
  call_value code f vs (heap (lua w1)) = (h, inl e) ->
  LuaCall code py_convert (map Some pre) w
  = Ret None
      (set_err (PyErr_Msg PyExc_Exception "error: %s" [ArgStr (cstring_of e)])
         (set_lua (mkState [e] h (panic (lua w1))) w1)).
Proof.
  intros Hlen Hp Hst Hvs Hcall.
  unfold LuaCall, PyTuple_Size.
  rewrite cast_int_small by (rewrite length_map; lia).
  unfold bind at 1. rewrite (LuaCall_args_all pre w w1 Hp).
  destruct w1 as [[st1 h1 p1] e1 n1].
  cbn [lua stack heap panic] in *. subst st1. run.
  rewrite length_map, <- Hvs.
  pose proof (lua_pcall_shape code [] f vs h1 p1 LUA_MULTRET) as Hpc.
  cbn [app] in Hpc. rewrite Hpc, Hcall. unfold LUA_ERRRUN. run.
  reflexivity.
Qed.

End CallBridge.

Section CallRuns.

Import Demo.

Lemma LuaCall_argument_failure_witness :
  LuaCall demo_code py_convert_model [Some (PyInt 1); Some Py_None]
          (demo_call_world 2 1)
  = Ret None
      (mkWorld demo_state
         (Some (PyErr_Msg PyExc_TypeError "failed to convert argument #%d"
                  [ArgInt 1])) 1).
Proof.
  refine (LuaCall_argument_failure demo_code py_convert_model
            [Some (PyInt 1); Some Py_None] [PyInt 1] Py_None []
            (demo_call_world 2 1)
            (demo_pushed_world [LNumber 1%float] 1)
            (set_err (PyErr_Msg PyExc_RuntimeError "can't convert" [])
                     (demo_pushed_world [LNumber 1%float] 1))
            _ _ _ _).
  - reflexivity.
  - vm_compute. discriminate.
  - refine (pushed_cons _ _ (PyInt 1) 1 _ [] _ _ _ (pushed_nil _ _)).
    + reflexivity.
    + lia.
  - reflexivity.
Defined.


(** C2.  A call whose protected call fails returns NULL with the error
    object still on the Guest stack: the proxy of a function that raises
    "boom", called with no argument, leaves the stack holding "boom".  One
    step of iteration also returns with the wrapped table left on the stack. *)
Theorem failed_call_leaves_stack :
  let r := LuaObject_call demo_code py_convert_model (proxy 1) []
             (demo_world 1) in
  returned r = Some None
  /\ error_after r
     = Some (Some (PyErr_Msg PyExc_Exception "error: %s"
                     [ArgStr (CStr "boom")]))
  /\ stack_after r = Some [LString "boom"]
  /\ stack_after (LuaObject_iternext (proxy 4) (demo_world 1))
     = Some [LTable 1].
Proof. repeat split; vm_compute; reflexivity. Qed.

(** C10.  Function 3 returns one table; with no memory left for its proxy
    the conversion of this single result returns NULL, and the bridge then
    applies [Py_DECREF] to that NULL. *)
Theorem failed_conversion_decrefs_null :
  LuaObject_call demo_code py_convert_model (proxy 3) [] (demo_world 0)
  = Undefined "Py_DECREF(NULL)".
Proof. vm_compute. reflexivity. Qed.

End CallRuns.

(** ** The proxy: attributes, length, lost handles *)

Section Proxy.

Variable code : LuaCode.
Variable py_convert : lua_State -> PyObject -> bool -> lua_res Z.

Lemma lua_rawgeti_registry (st : list TValue) (h : lua_heap)
      (p : option lua_CFunction) (r : Z) :
  lua_rawgeti (mkState st h p) LUA_REGISTRYINDEX r
  = mkState (st ++ [default LNil (registry h !! r)]) h p.
Proof. reflexivity. Qed.




(** In general: length on a handle that names nothing answers 0 and reports
    no error. *)
Lemma LuaObject_length_lost (obj : LuaObject) (w : World) :
  registry (heap (lua w)) !! ref obj = None ->
  LuaObject_length obj w = Ret 0 (set_lua (set_stack [] (lua w)) w).
Proof.
  destruct w as [[st h p] e n]. cbn [lua heap]. intros Hreg.
  unfold LuaObject_length. run.
  rewrite lua_rawgeti_registry, Hreg. cbn [default from_option id].
  unfold lua_objlen. rewrite index2adr_top. reflexivity.
Qed.

End Proxy.

Section ProxyRuns.

Import Demo.


(** C4.  Handle 9 names nothing in the registry.  Attribute get and set on
    its proxy report "lost reference"; length answers 0 and reports nothing;
    call reports the failed call of a nil value; string conversion answers
    the text of a nil value; and iteration hands the nil value to
    [lua_next], which is undefined. *)
Theorem lost_reference_not_validated :
  error_after (LuaObject_getattr demo_code py_convert_model (proxy 9)
                 (PyString "a") (demo_world 1))
  = Some (Some (PyErr_Msg PyExc_RuntimeError "lost reference" []))
  /\ error_after (LuaObject_setattr demo_code py_convert_model (proxy 9)
                    (PyString "a") (PyInt 1) (demo_world 1))
     = Some (Some (PyErr_Msg PyExc_RuntimeError "lost reference" []))
  /\ LuaObject_length (proxy 9) (demo_world 1) = Ret 0 (demo_world 1)
  /\ error_after (LuaObject_call demo_code py_convert_model (proxy 9) []
                    (demo_world 1))
     = Some (Some (PyErr_Msg PyExc_Exception "error: %s"
                     [ArgStr (CStr "attempt to call a nil value")]))
  /\ LuaObject_str demo_code (proxy 9) (demo_world 1)
     = Ret (Some (PyStringF "<Lua %s>" [ArgStr (CStr "nil")])) (demo_world 0)
  /\ LuaObject_iternext (proxy 9) (demo_world 1)
     = Undefined "lua_next on a value that is not a table".
Proof. repeat split; vm_compute; reflexivity. Qed.

End ProxyRuns.

(** ** The proxy: iteration *)

Section Iteration.

Lemma TRY_CATCH_ok {A} (body : lua_State -> lua_res A) (w : World) (a : A)
      (L2 : lua_State) :
  body (installed (lua w)) = LOk a L2 ->
  TRY_CATCH body w = Ret (Some a) (set_lua (restored L2 w) w).
Proof.
  intros Hb. unfold TRY_CATCH, lua_atpanic. fold (installed (lua w)).
  rewrite Hb. reflexivity.
Qed.

Lemma lua_next_entry (st : list TValue) (h : lua_heap)
      (p : option lua_CFunction) (a : Z) (c k v : TValue) :
  table_next (default [] (tables h !! a)) c = Some (Some (k, v)) ->
  lua_next (mkState (st ++ [LTable a; c]) h p) (-2)
  = LOk 1 (mkState (st ++ [LTable a; k; v]) h p).
Proof.
  intros Hn. unfold lua_next, slot.
  destruct (index2adr_top2 h p st (LTable a) c) as [-> ->].
  cbn [default from_option id]. unfold table_at. cbn [heap]. rewrite Hn.
  change (st ++ [LTable a; c])%list with (st ++ [LTable a] ++ [c])%list.
  rewrite app_assoc, lua_pop_1. unfold push, set_stack. cbn [stack heap panic].
  rewrite <- !app_assoc. reflexivity.
Qed.

(** C3, as the code has it.  On a proxy whose handle names a table with an
    entry [(k, v)] after the cursor, one step of iteration answers what
    [LuaConvert] makes of the key [k] (the value is popped unread), and
    stores [k] as the new cursor: under a handle that was not in use when
    the proxy had none, under the proxy's handle otherwise. *)
Theorem LuaObject_iternext_yields_key (obj : LuaObject) (w : World)
        (a : Z) (k v : TValue) :
  registry (heap (lua w)) !! ref obj = Some (LTable a) ->
  table_next (table_at (lua w) a) (cursor obj (lua w)) = Some (Some (k, v)) ->
  is_nil k = false ->
  iternext_step fst obj w a k v.
Proof.
  destruct w as [[st h p] e n]. destruct obj as [r ri].
  unfold table_at, cursor. cbn [lua heap ref refiter fst].
  intros Hreg Hnext Hk. unfold iternext_step. cbn [ref refiter].
  destruct (LuaConvert_returns (-1)
              (set_lua (set_stack (st ++ [LTable a; k]) (mkState st h p))
                       (mkWorld (mkState st h p) e n)))
    as (res & w2 & Hconv).
  exists res.
  pose proof (LuaConvert_frame _ _ _ _ Hconv) as (Hst & Hpa & Htb).
  destruct w2 as [[st2 h2 p2] e2 n2]. run in Hconv.
  cbn [lua stack heap panic set_lua set_stack] in Hst, Hpa, Htb. subst st2 p2.
  unfold LuaObject_iternext. cbn [ref refiter].
  destruct (ri =? LUA_NOREF) eqn:Eri; run;
    rewrite lua_rawgeti_registry, Hreg; cbn [default from_option id];
    [unfold lua_pushnil; run | rewrite lua_rawgeti_registry];
    rewrite <- app_assoc; cbn [app];
    rewrite (TRY_CATCH_ok _ _ 1 (mkState (st ++ [LTable a; k; v]) h
                                         (Some fn_py_lua_panic)))
      by (run; apply lua_next_entry; exact Hnext);
    run; cbn [default from_option id]; run;
    change (st ++ [LTable a; k; v])%list
      with (st ++ [LTable a; k] ++ [v])%list;
    rewrite app_assoc, lua_pop_1;
    rewrite Hconv; run;
    change (st ++ [LTable a; k])%list with (st ++ [LTable a] ++ [k])%list;
    rewrite app_assoc.
  - rewrite luaL_ref_pushed, Hk.
    eexists _, _, _. split; [reflexivity|]. split; [reflexivity|].
    cbn [ref refiter lua heap registry].
    split; [reflexivity|]. split; [intros _; apply fresh_ref_fresh|].
    split; [intros Hc; apply Z.eqb_eq in Eri; contradiction|].
    apply lookup_insert_eq.
  - rewrite (lua_rawseti_registry _ _ _ _ _ Hk).
    eexists _, _, _. split; [reflexivity|]. split; [reflexivity|].
    cbn [ref refiter lua heap registry].
    split; [reflexivity|].
    split; [intros Hc; apply Z.eqb_neq in Eri; contradiction|].
    split; [reflexivity|]. apply lookup_insert_eq.
Qed.

End Iteration.
Section IterationRuns.

Import Demo.

(** C3, as stated, at the table [{a = 1}]: the step on a fresh proxy answers
    the key "a", while the conversion of the value component 1 is the integer
    1; so the step does not answer the value component. *)
Lemma iternext_value_counterexample :
  registry (heap (lua (demo_world 1))) !! ref (proxy 4) = Some (LTable 1)
  /\ table_next (table_at (lua (demo_world 1)) 1)
                (cursor (proxy 4) (lua (demo_world 1)))
     = Some (Some (LString "a", LNumber 1%float))
  /\ returned (LuaObject_iternext (proxy 4) (demo_world 1))
     = Some (Some (PyString "a"), mkLuaObject 4 5)
  /\ ~ iternext_step snd (proxy 4) (demo_world 1) 1
         (LString "a") (LNumber 1%float).
Proof.
  split; [reflexivity|]. split; [reflexivity|]. split; [reflexivity|].
  intros (res & obj' & w2 & w3 & Hconv & Hit & _).
  vm_compute in Hconv. vm_compute in Hit.
  injection Hconv as Hres _. injection Hit as Hres' _ _.
  rewrite <- Hres in Hres'. discriminate.
Qed.

Lemma LuaObject_iternext_yields_key_witness :
  registry (heap (lua (demo_world 1))) !! ref (proxy 4) = Some (LTable 1)
  /\ table_next (table_at (lua (demo_world 1)) 1)
                (cursor (proxy 4) (lua (demo_world 1)))
     = Some (Some (LString "a", LNumber 1%float))
  /\ iternext_step fst (proxy 4) (demo_world 1) 1
       (LString "a") (LNumber 1%float).
Proof.
  split; [reflexivity|]. split; [reflexivity|].
  apply (LuaObject_iternext_yields_key (proxy 4) (demo_world 1) 1
           (LString "a") (LNumber 1%float)); reflexivity.
Defined.

End IterationRuns.

(** ** The Guest stack when an operation returns *)

Section StackReset.

Variable code : LuaCode.
Variable py_convert : lua_State -> PyObject -> bool -> lua_res Z.

(** Taking a returning computation apart. *)
Lemma bind_Ret {A B} (m : M A) (k : A -> M B) (w : World) (b : B) (w' : World) :
  bind m k w = Ret b w' ->
  exists a w1, m w = Ret a w1 /\ k a w1 = Ret b w'.
Proof.
  unfold bind. destruct (m w) as [a w1 | | |]; try discriminate.
  intros H. exists a, w1. split; [reflexivity | exact H].
Qed.

Lemma leave_resets {A} (r : A) (w : World) (r' : A) (w' : World) :
  leave r w = Ret r' w' -> stack (lua w') = [].
Proof. unfold leave. run. intros H. injection H as _ <-. reflexivity. Qed.

(** The operations that go through the shared exit return with the Guest
    stack empty, on every path. *)
Lemma LuaObject_getattr_resets (obj : LuaObject) (attr : PyObject) (w : World)
      (r : option PyObject) (w' : World) :
  LuaObject_getattr code py_convert obj attr w = Ret r w' ->
  stack (lua w') = [].
Proof.
  unfold LuaObject_getattr. intros H.
  apply bind_Ret in H as (? & w1 & _ & H).
  apply bind_Ret in H as (lost & w2 & _ & H).
  destruct lost.
  - apply bind_Ret in H as (? & w3 & _ & H). exact (leave_resets _ _ _ _ H).
  - apply bind_Ret in H as (rc & w3 & _ & H).
    destruct (negb (rc =? 0)).
    + apply bind_Ret in H as ([u|] & w4 & _ & H).
      * apply bind_Ret in H as (? & w5 & _ & H). exact (leave_resets _ _ _ _ H).
      * exact (leave_resets _ _ _ _ H).
    + apply bind_Ret in H as (? & w4 & _ & H). exact (leave_resets _ _ _ _ H).
Qed.

Lemma LuaObject_setattr_resets (obj : LuaObject) (attr value : PyObject)
      (w : World) (r : Z) (w' : World) :
  LuaObject_setattr code py_convert obj attr value w = Ret r w' ->
  stack (lua w') = [].
Proof.
  unfold LuaObject_setattr. intros H.
  apply bind_Ret in H as (? & w1 & _ & H).
  apply bind_Ret in H as (lost & w2 & _ & H).
  destruct lost.
  { apply bind_Ret in H as (? & w3 & _ & H). exact (leave_resets _ _ _ _ H). }
  apply bind_Ret in H as (is_table & w3 & _ & H).
  destruct (negb is_table).
  { apply bind_Ret in H as (? & w4 & _ & H). exact (leave_resets _ _ _ _ H). }
  apply bind_Ret in H as (rc & w4 & _ & H).
  destruct (negb (rc =? 0)).
  - apply bind_Ret in H as (rc2 & w5 & _ & H).
    destruct (negb (rc2 =? 0)).
    + apply bind_Ret in H as ([u|] & w6 & _ & H);
        exact (leave_resets _ _ _ _ H).
    + apply bind_Ret in H as (? & w6 & _ & H). exact (leave_resets _ _ _ _ H).
  - apply bind_Ret in H as (? & w5 & _ & H). exact (leave_resets _ _ _ _ H).
Qed.

Lemma LuaState_run_resets (args : list (option PyObject)) (eval : bool)
      (w : World) (r : option PyObject) (w' : World) :
  LuaState_run code args eval w = Ret r w' -> stack (lua w') = [].
Proof.
  unfold LuaState_run. intros H.
  apply bind_Ret in H as ([s|] & w1 & _ & H).
  2:{ exact (leave_resets _ _ _ _ H). }
  apply bind_Ret in H as (rc & w2 & _ & H).
  destruct (negb (rc =? 0)).
  { apply bind_Ret in H as (? & w3 & _ & H).
    apply bind_Ret in H as (? & w4 & _ & H). exact (leave_resets _ _ _ _ H). }
  apply bind_Ret in H as (rc2 & w3 & _ & H).
  destruct (negb (rc2 =? 0)).
  { apply bind_Ret in H as (? & w4 & _ & H).
    apply bind_Ret in H as (? & w5 & _ & H). exact (leave_resets _ _ _ _ H). }
  apply bind_Ret in H as (? & w4 & _ & H). exact (leave_resets _ _ _ _ H).
Qed.

Lemma LuaObject_length_resets (obj : LuaObject) (w : World) (r : Z)
      (w' : World) :
  LuaObject_length obj w = Ret r w' -> stack (lua w') = [].
Proof.
  unfold LuaObject_length. run. intros H. injection H as _ <-. reflexivity.
Qed.

End StackReset.
